(** * sgr-raidping: the forum monitor of [main.py]

    A shallow embedding of the seen-thread store, the thread extractor, the
    webhook sender and the monitor loop of [main.py], and the properties of
    the specification that concern them.

    Conventions of the embedding:
    - Python code that can raise runs in the monad [Py]: a state monad over
      the [world] (the shared [seen_threads] list object, the threads file,
      the effects performed so far) whose results are [Ok] or [Raise].  State
      changes made before an exception survive it, as in Python.
    - [try: ... except ...:] is [try_except]; the exception classes are those
      the handlers of [main.py] tell apart: Playwright's [Error] (imported as
      [PlaywrightError]) with its subclasses, and every other [Exception].
      [BaseException]s that are not [Exception]s (KeyboardInterrupt,
      CancelledError) are outside the model, and so are the [print] lines.
    - The collaborators are oracles: the answers of the page are data of the
      script the loop runs against, the answers of the webhook endpoint, of
      the file system and of the clock are functions of the attempt number.
    - Strings are [string]s of code units below 256. *)

From stdpp Require Import base decidable option list strings pretty gmap.
From Stdlib Require Import ZArith Lia.

Local Set Warnings "-register-all".
Local Open Scope string_scope.
Local Open Scope list_scope.
Local Open Scope Z_scope.

(** ** Exceptions *)

(** The subclasses of [playwright.async_api.Error]: [TimeoutError] (raised by
    [wait_for_selector] when the selector does not show up within [timeout])
    and [TargetClosedError] both derive from [Error]. *)
Inductive playwright_error :=
  | TimeoutError
  | TargetClosedError
  | GenericError.

Inductive exn :=
  | PlaywrightError (k : playwright_error)
  | OtherException (name : string).

(** [isinstance(e, PlaywrightError)], the test of [except PlaywrightError:]. *)
Definition isinstance_PlaywrightError (e : exn) : bool :=
  match e with
  | PlaywrightError _ => true
  | OtherException _ => false
  end.

Inductive result (A : Type) :=
  | Ok (a : A)
  | Raise (e : exn).
Arguments Ok {A} a.
Arguments Raise {A} e.

(** ** Python values *)

(** Numbers handed to [asyncio.sleep]: an [int], or a finite [float]
    [mantissa * 2 ^ exponent]. *)
Inductive pynum :=
  | PInt (z : Z)
  | PFloat (mantissa exponent : Z).

(** JSON documents: what [json.load] returns and what [requests.post(json=)]
    is given. *)
Inductive json :=
  | JNull
  | JBool (b : bool)
  | JNum (z : Z)
  | JStr (s : string)
  | JArr (items : list json)
  | JObj (fields : list (string * json)).

(** A value of a [thread_data] dict is a [str] or [None]: [option string]. *)
Abbreviation pyval := (option string).

Definition json_of_pyval (v : pyval) : json :=
  match v with
  | Some s => JStr s
  | None => JNull
  end.

(** [not v] for a [str] or [None]. *)
Definition falsy (v : pyval) : bool :=
  match v with
  | None => true
  | Some s => bool_decide (s = "")
  end.

(** [str(v)], as an f-string formats [{v}]. *)
Definition py_str (v : pyval) : string :=
  match v with
  | Some s => s
  | None => "None"
  end.

(** [dict.get(key, default)]. *)
Definition dict_get (d : gmap string pyval) (key : string) (dflt : pyval) : pyval :=
  default dflt (d !! key).

(** *** [str.strip()] *)

(** [str.isspace] on one character below 256. *)
Definition isspace (c : Ascii.ascii) : bool :=
  let n := N.to_nat (Ascii.N_of_ascii c) in
  bool_decide (9 ≤ n ≤ 13 ∨ 28 ≤ n ≤ 32 ∨ n = 133 ∨ n = 160)%nat.

Fixpoint lstrip (s : string) : string :=
  match s with
  | EmptyString => EmptyString
  | String c s' => if isspace c then lstrip s' else s
  end.

Fixpoint rstrip (s : string) : string :=
  match s with
  | EmptyString => EmptyString
  | String c s' =>
      match rstrip s' with
      | EmptyString => if isspace c then EmptyString else String c EmptyString
      | r => String c r
      end
  end.

Definition strip (s : string) : string := rstrip (lstrip s).

(** *** Slices *)

(** [l[start:]]: a negative [start] counts from the end, and both ends are
    clamped to the list. *)
Definition slice_from {A} (start : Z) (l : list A) : list A :=
  let n := Z.of_nat (length l) in
  let i := if start <? 0 then Z.max (n + start) 0 else Z.min start n in
  drop (Z.to_nat i) l.

(** ** The page *)

(** The five selectors [extract_thread_data] queries a thread card with. *)
Inductive selector :=
  | SelTitle      (* [class*=title_f75fb0], h3, [role=heading] *)
  | SelAuthor     (* [class*=author], [class*=username], span[class*=name] *)
  | SelMessage    (* div[class*=messageContent_], div[class*=preview_], div[class*=markup_] *)
  | SelContainer  (* div[data-item-id] *)
  | SelTime.      (* time *)

(** An element handle, by what its methods answer. *)
Record element_handle := {
  inner_text : result string;
  get_attribute : string → result (option string)
}.

(** A thread card: [query_selector] raises, finds nothing, or finds a handle. *)
Record thread_element := {
  query_selector : selector → result (option element_handle)
}.

(** What the page and [random] answer during one iteration of the loop of
    [forum_monitor_loop]. *)
Record cycle := {
  wait_for_selector : result unit;
  query_selector_all : result (list thread_element);
  random_uniform : pynum;         (* random.uniform(5, 12) *)
  randint_scroll : Z;             (* random.randint(8, 16) *)
  randint_wheel : Z;              (* random.randint(-400, 400) *)
  mouse_wheel : result unit;
  reload : result unit
}.

(** ** The world *)

(** The threads file: absent, or present with what opening and reading it
    gives. *)
Inductive file :=
  | NoFile
  | File (read : result string).

(** What [open(THREADS_FILE, "w")] followed by [json.dump] does: it succeeds,
    [open] raises (the file is left as it was), or the write raises after
    the file was truncated (it is left with [partial]). *)
Inductive write_outcome :=
  | WriteOk
  | OpenRaises (e : exn)
  | DumpRaises (e : exn) (partial : string).

Inductive event :=
  | EvNewThread (thread_id : string)
  | EvPost (url : string) (payload : json) (outcome : result Z)
  | EvDump (seen_list : list string) (outcome : write_outcome)
  | EvSleep (seconds : pynum)
  | EvWheel (dx dy : Z) (outcome : result unit)
  | EvReload (outcome : result unit).

Record world := {
  seen_threads : list string;  (* the list object [run] hands to the loop *)
  threads_file : file;
  trace : list event;          (* oldest first *)
  scroll_counter : Z;          (* the local variable of forum_monitor_loop *)
  posts : nat;                 (* calls of requests.post so far *)
  writes : nat;                (* attempts to write the threads file so far *)
  clock : nat                  (* readings of datetime.utcnow() so far *)
}.

Definition set_seen_threads (l : list string) (w : world) : world :=
  {| seen_threads := l;
     threads_file := threads_file w;
     trace := trace w;
     scroll_counter := scroll_counter w;
     posts := posts w;
     writes := writes w;
     clock := clock w |}.

Definition set_threads_file (f : file) (w : world) : world :=
  {| seen_threads := seen_threads w;
     threads_file := f;
     trace := trace w;
     scroll_counter := scroll_counter w;
     posts := posts w;
     writes := writes w;
     clock := clock w |}.

Definition log_event (ev : event) (w : world) : world :=
  {| seen_threads := seen_threads w;
     threads_file := threads_file w;
     trace := trace w ++ [ev];
     scroll_counter := scroll_counter w;
     posts := posts w;
     writes := writes w;
     clock := clock w |}.

Definition set_scroll_counter (n : Z) (w : world) : world :=
  {| seen_threads := seen_threads w;
     threads_file := threads_file w;
     trace := trace w;
     scroll_counter := n;
     posts := posts w;
     writes := writes w;
     clock := clock w |}.

Definition tick_posts (w : world) : world :=
  {| seen_threads := seen_threads w;
     threads_file := threads_file w;
     trace := trace w;
     scroll_counter := scroll_counter w;
     posts := S (posts w);
     writes := writes w;
     clock := clock w |}.

Definition tick_writes (w : world) : world :=
  {| seen_threads := seen_threads w;
     threads_file := threads_file w;
     trace := trace w;
     scroll_counter := scroll_counter w;
     posts := posts w;
     writes := S (writes w);
     clock := clock w |}.

Definition tick_clock (w : world) : world :=
  {| seen_threads := seen_threads w;
     threads_file := threads_file w;
     trace := trace w;
     scroll_counter := scroll_counter w;
     posts := posts w;
     writes := writes w;
     clock := S (clock w) |}.

(** ** The monad *)

Definition Py (A : Type) : Type := world → result A * world.

Definition ret {A} (a : A) : Py A := λ w, (Ok a, w).

Definition raise {A} (e : exn) : Py A := λ w, (Raise e, w).

Definition bind {A B} (m : Py A) (k : A → Py B) : Py B :=
  λ w, match m w with
       | (Ok a, w') => k a w'
       | (Raise e, w') => (Raise e, w')
       end.

(** A call whose outcome is known. *)
Definition lift {A} (r : result A) : Py A := λ w, (r, w).

(** [try: body except Exception as e: handler e]. *)
Definition try_except {A} (body : Py A) (handler : exn → Py A) : Py A :=
  λ w, match body w with
       | (Ok a, w') => (Ok a, w')
       | (Raise e, w') => handler e w'
       end.

Definition modify (f : world → world) : Py unit := λ w, (Ok tt, f w).

Definition gets {A} (f : world → A) : Py A := λ w, (Ok (f w), w).

Declare Scope py_scope.
Delimit Scope py_scope with py.
Notation "'let*' x ':=' m 'in' k" := (bind m (λ x, k))
  (at level 10, x name, m at level 100, k at level 200,
   format "'[v' 'let*'  x  ':='  m  'in' '/' k ']'") : py_scope.
Notation "m ';;;' k" := (bind m (λ _, k))
  (at level 100, k at level 200, right associativity,
   format "'[v' m  ';;;' '/' k ']'") : py_scope.
Local Open Scope py_scope.

(** [for x in xs: body x]; an exception of the body leaves the loop. *)
Fixpoint for_each {A} (body : A → Py unit) (xs : list A) : Py unit :=
  match xs with
  | [] => ret tt
  | x :: xs' => body x ;;; for_each body xs'
  end.

(** [await asyncio.sleep(seconds)]. *)
Definition sleep (seconds : pynum) : Py unit := modify (log_event (EvSleep seconds)).

(** [v.strip()] for a dict value. *)
Definition py_strip (v : pyval) : Py string :=
  match v with
  | Some s => ret (strip s)
  | None => raise (OtherException "AttributeError")
  end.

(** [a + b] for two dict values. *)
Definition py_add (a b : pyval) : Py string :=
  match a, b with
  | Some x, Some y => ret (x +:+ y)
  | _, _ => raise (OtherException "TypeError")
  end.

(** [a % b] on [int]s. *)
Definition py_mod (a b : Z) : Py Z :=
  if b =? 0 then raise (OtherException "ZeroDivisionError") else ret (a `mod` b).

(** ** Configuration *)

Definition DISCORD_FORUM_URL : string :=
  "https://discord.com/channels/1000384021542469632/1303601992169426995".
Definition MAX_SEEN_THREADS : Z := 20.
Definition FOOTER_TEXT : string := "brought to you by arle.".
Definition FOOTER_ICON : string := "https://i.imgur.com/JdlwG9w.jpeg".
Definition USERNAME : string := "Arlecchino".

(** ** The program *)

Section Monitor.

(** From the environment: [WEBHOOK_URL] and [ROLE_PING_ID]. *)
Variable WEBHOOK_URL : string.
Variable ROLE_PING_ID : option string.

(** The value of the module global [MAX_SEEN_THREADS] when the functions
    run: [MAX_SEEN_THREADS] unless a caller has rebound it. *)
Variable max_seen : Z.

(** [hash] on [str], seeded once per process. *)
Variable hash : string → Z.

(** [json.loads] and [json.dumps]. *)
Variable json_loads : string → result json.
Variable json_dumps : json → string.

(** The outcome of the [n]-th [requests.post] (the status code of the
    response, or an exception), of the [n]-th attempt to write the threads
    file, and [datetime.utcnow().isoformat()] at its [n]-th reading. *)
Variable requests_post : nat → result Z.
Variable file_write : nat → write_outcome.
Variable utcnow_isoformat : nat → string.

(** *** [load_seen_threads], [save_seen_threads] *)

Definition os_path_exists (f : file) : bool :=
  match f with
  | NoFile => false
  | File _ => true
  end.

(** [with open(f, "r") as h: h.read()]. *)
Definition open_read (f : file) : Py string :=
  match f with
  | NoFile => raise (OtherException "FileNotFoundError")
  | File read => lift read
  end.

Definition load_seen_threads : Py json :=
  let* f := gets threads_file in
  if os_path_exists f then
    try_except
      (let* text := open_read f in
       lift (json_loads text))
      (λ _, ret (JArr []))
  else ret (JArr []).

(** [save_seen_threads(seen_list)]: every call passes the list object
    [seen_threads], which the slice assignment changes in place. *)
Definition save_seen_threads : Py unit :=
  try_except
    (let* seen_list := gets seen_threads in
     modify (set_seen_threads (slice_from (- max_seen) seen_list)) ;;;
     let* seen_list := gets seen_threads in
     let* n := gets writes in
     modify tick_writes ;;;
     modify (log_event (EvDump seen_list (file_write n))) ;;;
     match file_write n with
     | WriteOk =>
         modify (set_threads_file (File (Ok (json_dumps (JArr (JStr <$> seen_list))))))
     | OpenRaises e => raise e
     | DumpRaises e partial =>
         modify (set_threads_file (File (Ok partial))) ;;; raise e
     end)
    (λ _, ret tt).

(** [seen_threads.append(thread_id)]. *)
Definition append (thread_id : string) : Py unit :=
  let* seen_list := gets seen_threads in
  modify (set_seen_threads (seen_list ++ [thread_id])).

(** *** [send_payload] *)

Definition send_payload (payload : json) : Py (option Z) :=
  try_except
    (let* n := gets posts in
     modify tick_posts ;;;
     modify (log_event (EvPost WEBHOOK_URL payload (requests_post n))) ;;;
     let* status_code := lift (requests_post n) in
     ret (Some status_code))
    (λ _, ret None).

(** *** [extract_thread_data] *)

Definition extract_thread_data (thread_element : thread_element)
  : Py (option (gmap string pyval)) :=
  try_except
    (let* title_el := lift (query_selector thread_element SelTitle) in
     let* title :=
       match title_el with
       | Some el => lift (inner_text el)
       | None => ret "Untitled Thread"
       end in
     let* author_el := lift (query_selector thread_element SelAuthor) in
     let* author :=
       match author_el with
       | Some el => lift (inner_text el)
       | None => ret "Unknown"
       end in
     let* message_el := lift (query_selector thread_element SelMessage) in
     let* content :=
       match message_el with
       | Some el => lift (inner_text el)
       | None => ret ""
       end in
     let* container := lift (query_selector thread_element SelContainer) in
     let* id_url :=
       match container with
       | Some el =>
           let* thread_id := lift (get_attribute el "data-item-id") in
           ret (thread_id, DISCORD_FORUM_URL +:+ "/threads/" +:+ py_str thread_id)
       | None => ret (None, "")
       end in
     let* time_el := lift (query_selector thread_element SelTime) in
     let* timestamp :=
       match time_el with
       | Some el => lift (get_attribute el "datetime")
       | None => ret None
       end in
     let* timestamp :=
       if falsy timestamp then
         let* n := gets clock in
         modify tick_clock ;;;
         ret (Some (utcnow_isoformat n +:+ "Z"))
       else ret timestamp in
     ret (Some (list_to_map
                  [("id", id_url.1);
                   ("title", Some (strip title));
                   ("author", Some (strip author));
                   ("content", Some (strip content));
                   ("url", Some id_url.2);
                   ("timestamp", timestamp)])))
    (λ _, ret None).

(** *** [post_new_thread_webhook] *)

Definition post_new_thread_webhook (thread_data : gmap string pyval) : Py unit :=
  let title := dict_get thread_data "title" (Some "Untitled") in
  let thread_url := dict_get thread_data "url" (Some "") in
  let* n := gets clock in
  modify tick_clock ;;;
  let timestamp := dict_get thread_data "timestamp" (Some (utcnow_isoformat n +:+ "Z")) in
  let* content_preview := py_strip (dict_get thread_data "content" (Some "")) in
  let mention :=
    if falsy ROLE_PING_ID then "" else "<@&" +:+ py_str ROLE_PING_ID +:+ ">" in
  let content := mention in
  let embed :=
    JObj [("title", json_of_pyval title);
          ("description",
           JStr (if bool_decide (content_preview = "")
                 then "No preview available." else content_preview));
          ("timestamp", JNull);
          ("footer", JObj [("text", JStr FOOTER_TEXT); ("icon_url", JStr FOOTER_ICON)])] in
  let payload :=
    JObj [("username", JStr USERNAME);
          ("content", JStr content);
          ("embeds", JArr [embed])] in
  send_payload payload ;;;
  ret tt.

(** *** [forum_monitor_loop] *)

(** Lines 163-166: the identifier of a thread, the [id] of its data or,
    when that is [None] or empty, the fallback built from the hash of
    [url + title]. *)
Definition thread_id_of (thread_data : gmap string pyval) : Py string :=
  match dict_get thread_data "id" None with
  | Some thread_id =>
      if bool_decide (thread_id = "") then
        let* key := py_add (dict_get thread_data "url" (Some ""))
                           (dict_get thread_data "title" (Some "")) in
        ret ("fallback:" +:+ pretty (hash key))
      else ret thread_id
  | None =>
      let* key := py_add (dict_get thread_data "url" (Some ""))
                         (dict_get thread_data "title" (Some "")) in
      ret ("fallback:" +:+ pretty (hash key))
  end.

(** Lines 160-181: the body of [for thread_el in thread_elements:]. *)
Definition process_thread (thread_el : thread_element) : Py unit :=
  let* thread_data := extract_thread_data thread_el in
  match thread_data with
  | None => ret tt
  | Some thread_data =>
      if bool_decide (thread_data = ∅) then ret tt
      else
        let* thread_id := thread_id_of thread_data in
        if bool_decide (thread_id = "1303609863024148602") then
          append thread_id ;;;
          save_seen_threads
        else
          let* seen := gets seen_threads in
          if bool_decide (thread_id ∉ seen) then
            modify (log_event (EvNewThread thread_id)) ;;;
            post_new_thread_webhook thread_data ;;;
            append thread_id ;;;
            save_seen_threads
          else ret tt
  end.

(** How one iteration of [while True:] ends. *)
Inductive flow :=
  | Next      (* the loop goes round again *)
  | Return.   (* the function returns *)

(** [await page.mouse.wheel(dx, dy)] and [await page.reload()]. *)
Definition page_mouse_wheel (page : cycle) (dx dy : Z) : Py unit :=
  modify (log_event (EvWheel dx dy (mouse_wheel page))) ;;;
  lift (mouse_wheel page).

Definition page_reload (page : cycle) : Py unit :=
  modify (log_event (EvReload (reload page))) ;;;
  lift (reload page).

(** Lines 148-212: one iteration of the loop, against the answers [page]. *)
Definition iteration (page : cycle) : Py flow :=
  try_except
    (lift (wait_for_selector page) ;;;
     let* thread_elements := lift (query_selector_all page) in
     for_each process_thread thread_elements ;;;
     let wait_time := random_uniform page in
     sleep wait_time ;;;
     let* c := gets scroll_counter in
     modify (set_scroll_counter (c + 1)) ;;;
     let* c := gets scroll_counter in
     let* r := py_mod c (randint_scroll page) in
     let* scrolled :=
       if r =? 0 then
         try_except
           (page_mouse_wheel page 0 (randint_wheel page) ;;;
            ret Next)
           (λ e, if isinstance_PlaywrightError e then ret Return else raise e)
       else ret Next in
     match scrolled with
     | Return => ret Return
     | Next =>
         let* c := gets scroll_counter in
         if c `mod` 40 =? 0 then
           try_except
             (page_reload page ;;;
              sleep (PInt 2) ;;;
              ret Next)
             (λ e, if isinstance_PlaywrightError e then ret Return else raise e)
         else ret Next
     end)
    (λ e, if isinstance_PlaywrightError e then ret Return
          else sleep (PInt 10) ;;; ret Next).

(** Whether the loop has returned when the script of page answers ends. *)
Inductive loop_status :=
  | Returned
  | Running.

Fixpoint iterations (script : list cycle) : Py loop_status :=
  match script with
  | [] => ret Running
  | page :: script' =>
      let* ctl := iteration page in
      match ctl with
      | Return => ret Returned
      | Next => iterations script'
      end
  end.

Definition forum_monitor_loop (script : list cycle) : Py loop_status :=
  modify (set_scroll_counter 0) ;;;
  iterations script.

(** *** Notions the properties are stated with *)

(** [record]: lines 170-171 and 180-181, an identifier is appended to the
    list and the list is saved. *)
Definition record (thread_id : string) : Py unit :=
  append thread_id ;;;
  save_seen_threads.

(** The last [n] entries of a list. *)
Definition last_entries {A} (n : nat) (l : list A) : list A :=
  drop (length l - n) l.

(** A process that has done nothing yet. *)
Definition empty_world : world :=
  {| seen_threads := []; threads_file := NoFile; trace := [];
     scroll_counter := 0; posts := 0; writes := 0; clock := 0 |}.

(** The identifier under which the loop handles a thread card, [None] when
    [extract_thread_data] gives no data for it.  The answers of a card do
    not depend on the world ([process_thread_skip], [process_thread_blocked],
    [process_thread_seen] and [process_thread_new] below). *)
Definition candidate_id (thread_el : thread_element) : option string :=
  match extract_thread_data thread_el empty_world with
  | (Ok (Some thread_data), w) =>
      if bool_decide (thread_data = ∅) then None
      else match thread_id_of thread_data w with
           | (Ok thread_id, _) => Some thread_id
           | (Raise _, _) => None
           end
  | _ => None
  end.

(** A call that [extract_thread_data] makes on the card raises. *)
Inductive extractor_raises (thread_el : thread_element) : Prop :=
  | query_raises sel e :
      query_selector thread_el sel = Raise e →
      extractor_raises thread_el
  | inner_text_raises sel el e :
      sel = SelTitle ∨ sel = SelAuthor ∨ sel = SelMessage →
      query_selector thread_el sel = Ok (Some el) →
      inner_text el = Raise e →
      extractor_raises thread_el
  | item_id_raises el e :
      query_selector thread_el SelContainer = Ok (Some el) →
      get_attribute el "data-item-id" = Raise e →
      extractor_raises thread_el
  | datetime_raises el e :
      query_selector thread_el SelTime = Ok (Some el) →
      get_attribute el "datetime" = Raise e →
      extractor_raises thread_el.

(** The number of notifications sent for the thread [thread_id]: the
    requests that follow the announcement of that thread as new. *)
Fixpoint notifications (thread_id : string) (tr : list event) : nat :=
  match tr with
  | [] => 0
  | ev :: tr' =>
      match ev, tr' with
      | EvNewThread j, EvPost _ _ _ :: _ =>
          if bool_decide (j = thread_id) then S (notifications thread_id tr')
          else notifications thread_id tr'
      | _, _ => notifications thread_id tr'
      end
  end%nat.

(** The page answers of [page], with other thread cards. *)
Definition with_thread_elements (els : list thread_element) (page : cycle) : cycle :=
  {| wait_for_selector := wait_for_selector page;
     query_selector_all := Ok els;
     random_uniform := random_uniform page;
     randint_scroll := randint_scroll page;
     randint_wheel := randint_wheel page;
     mouse_wheel := mouse_wheel page;
     reload := reload page |}.

Definition is_post (ev : event) : bool :=
  match ev with
  | EvPost _ _ _ => true
  | _ => false
  end.

Definition is_new_thread (ev : event) : bool :=
  match ev with
  | EvNewThread _ => true
  | _ => false
  end.

(** What is on disk after an attempt to write [seen_list] over [f]. *)
Definition written (outcome : write_outcome) (seen_list : list string) (f : file) : file :=
  match outcome with
  | WriteOk => File (Ok (json_dumps (JArr (JStr <$> seen_list))))
  | OpenRaises _ => f
  | DumpRaises _ partial => File (Ok partial)
  end.

(** The dict literal of [extract_thread_data]. *)
Definition thread_data_dict (thread_id : pyval) (title author content url : string)
    (timestamp : pyval) : gmap string pyval :=
  list_to_map
    [("id", thread_id);
     ("title", Some title);
     ("author", Some author);
     ("content", Some content);
     ("url", Some url);
     ("timestamp", timestamp)].

(** The identifier lines 163-166 give to the data of a card. *)
Definition id_or_fallback (thread_id : pyval) (url title : string) : string :=
  if falsy thread_id then "fallback:" +:+ pretty (hash (url +:+ title))
  else py_str thread_id.

(** The trace of the writes that recording [ids] one after the other
    attempts, the first being the write number [n]. *)
Definition dumps (seen_list : list string) (n : nat) (ids : list string) : list event :=
  imap (λ k _, EvDump (last_entries (Z.to_nat max_seen) (seen_list ++ take (S k) ids))
                      (file_write (n + k))) ids.

(** [m] keeps [P]: the world after [m] satisfies [P] when the world before
    does, whether [m] returns or raises. *)
Definition preserves {A} (P : world → Prop) (m : Py A) : Prop :=
  ∀ w, P w → P (m w).2.

(** What the loop does between two polls: it sleeps, scrolls, reloads and
    counts. *)
Definition is_pacing (ev : event) : bool :=
  match ev with
  | EvSleep _ | EvWheel _ _ _ | EvReload _ => true
  | _ => false
  end.

(** The thread [i] was recorded by the write number [k0 - 1] and has been
    notified [count] times: as long as fewer than [max_seen] writes have
    followed, it has not been notified again and it is in the list, with
    one newer entry for each of these writes. *)
Definition in_window (i : string) (k0 count : nat) (w : world) : Prop :=
  (k0 ≤ writes w)%nat ∧
  ((writes w - k0 < Z.to_nat max_seen)%nat →
   notifications i (trace w) = count ∧
   ∃ older newer,
     seen_threads w = older ++ i :: newer ∧
     length newer = (writes w - k0)%nat).

(** *** Concrete pages *)

Definition found (text : string) (attribute : option string) : element_handle :=
  {| inner_text := Ok text; get_attribute := λ _, Ok attribute |}.

(** A card with a title and a [data-item-id], and nothing else. *)
Definition card (item_id title : string) : thread_element :=
  {| query_selector := λ sel,
       match sel with
       | SelTitle => Ok (Some (found title None))
       | SelContainer => Ok (Some (found "" (Some item_id)))
       | _ => Ok None
       end |}.

(** A card in which nothing is found: no title, no author, no preview, no
    container, no time. *)
Definition bare_card : thread_element :=
  {| query_selector := λ _, Ok None |}.

(** A card without [data-item-id] container. *)
Definition anonymous_card (title : string) : thread_element :=
  {| query_selector := λ sel,
       match sel with
       | SelTitle => Ok (Some (found title None))
       | _ => Ok None
       end |}.


(** A poll that finds the cards [els]; scrolling and reloading, when their
    turn comes, succeed. *)
Definition quiet_page (els : list thread_element) : cycle :=
  {| wait_for_selector := Ok tt;
     query_selector_all := Ok els;
     random_uniform := PFloat 7 0;
     randint_scroll := 16;
     randint_wheel := 0;
     mouse_wheel := Ok tt;
     reload := Ok tt |}.

(** A poll in which the thread cards do not show up within the timeout. *)
Definition timed_out_page : cycle :=
  {| wait_for_selector := Raise (PlaywrightError TimeoutError);
     query_selector_all := Ok [];
     random_uniform := PFloat 7 0;
     randint_scroll := 16;
     randint_wheel := 0;
     mouse_wheel := Ok tt;
     reload := Ok tt |}.

(** The cards of the threads [t0], ..., [t(n-1)]. *)
Definition cards (n : nat) : list thread_element :=
  (λ k : nat, card ("t" +:+ pretty k) ("Thread " +:+ pretty k)) <$> seq 0 n.

(** *** Concrete collaborators *)

(** An endpoint that accepts every request, one that refuses every request,
    and one that cannot be reached. *)
Definition status_204 : nat → result Z := λ _, Ok 204.
Definition status_429 : nat → result Z := λ _, Ok 429.

(** A disk on which every write succeeds, and one on which the threads file
    cannot be opened for writing. *)
Definition write_ok : nat → write_outcome := λ _, WriteOk.
Definition read_only : nat → write_outcome :=
  λ _, OpenRaises (OtherException "PermissionError").

Definition sample_hash (s : string) : Z := Z.of_nat (String.length s) - 7.

Definition sample_clock (n : nat) : string := "2025-01-01T00:00:0" +:+ pretty n.

(** A serializer for arrays of strings, without escapes. *)
Definition sample_json_dumps (v : json) : string :=
  let quote := String (Ascii.ascii_of_nat 34) EmptyString in
  match v with
  | JArr items =>
      "[" +:+ String.concat ", "
                ((λ item, match item with
                          | JStr s => quote +:+ s +:+ quote
                          | _ => "null"
                          end) <$> items) +:+ "]"
  | _ => "null"
  end.

(** *** Notions of the further properties *)

(** A string begins, ends, with a whitespace character; all its characters
    are whitespace. *)
Definition starts_with_space (s : string) : bool :=
  match s with
  | EmptyString => false
  | String c _ => isspace c
  end.

Fixpoint ends_with_space (s : string) : bool :=
  match s with
  | EmptyString => false
  | String c EmptyString => isspace c
  | String _ s' => ends_with_space s'
  end.

Fixpoint all_space (s : string) : bool :=
  match s with
  | EmptyString => true
  | String c s' => isspace c && all_space s'
  end.

(** The text of the element a card has for a selector, and an attribute of
    that element: [None] when there is no such element, or when the call
    raises. *)
Definition card_text (el : thread_element) (sel : selector) : option string :=
  match query_selector el sel with
  | Ok (Some handle) =>
      match inner_text handle with
      | Ok text => Some text
      | Raise _ => None
      end
  | _ => None
  end.

Definition card_attribute (el : thread_element) (sel : selector) (name : string) : pyval :=
  match query_selector el sel with
  | Ok (Some handle) =>
      match get_attribute handle name with
      | Ok value => value
      | Raise _ => None
      end
  | _ => None
  end.

(** The threads announced as new, in the order of the trace. *)
Definition announced (tr : list event) : list string :=
  omap (λ ev, match ev with EvNewThread i => Some i | _ => None end) tr.

(** The number of reloads of the page in a trace. *)
Definition is_reload (ev : event) : bool :=
  match ev with
  | EvReload _ => true
  | _ => false
  end.

Definition reloads (tr : list event) : nat :=
  length (filter (λ ev, Is_true (is_reload ev)) tr).

(** A call of the page raises a [PlaywrightError]. *)
Definition raises_playwright {A} (r : result A) : bool :=
  match r with
  | Raise e => isinstance_PlaywrightError e
  | Ok _ => false
  end.

Definition page_gone (page : cycle) : bool :=
  raises_playwright (wait_for_selector page)
  || raises_playwright (query_selector_all page)
  || raises_playwright (mouse_wheel page)
  || raises_playwright (reload page).

(** A call of the page raises. *)
Definition raises {A} (r : result A) : bool :=
  match r with
  | Raise _ => true
  | Ok _ => false
  end.

Definition page_raises (page : cycle) : bool :=
  raises (wait_for_selector page) || raises (query_selector_all page)
  || raises (mouse_wheel page) || raises (reload page).

(** The file holds the list that is in memory. *)
Definition file_in_step (w : world) : Prop :=
  threads_file w = File (Ok (json_dumps (JArr (JStr <$> seen_threads w)))).

(** A parser for what [sample_json_dumps] writes. *)
Fixpoint sample_parse_items (text : string) (item : option string) (items : list string)
    : option (list string) :=
  match text with
  | EmptyString => None
  | String c text' =>
      match item with
      | Some read =>
          if bool_decide (c = Ascii.ascii_of_nat 34)
          then sample_parse_items text' None (items ++ [read])
          else sample_parse_items text' (Some (read +:+ String c EmptyString)) items
      | None =>
          if bool_decide (c = Ascii.ascii_of_nat 34) then sample_parse_items text' (Some "") items
          else if bool_decide (c = Ascii.ascii_of_nat 93)
               then (if bool_decide (text' = "") then Some items else None)
               else if bool_decide (c = Ascii.ascii_of_nat 44 ∨ c = Ascii.ascii_of_nat 32)
                    then sample_parse_items text' None items
                    else None
      end
  end.

Definition sample_json_loads (text : string) : result json :=
  match text with
  | String c text' =>
      if bool_decide (c = Ascii.ascii_of_nat 91) then
        match sample_parse_items text' None [] with
        | Some items => Ok (JArr (JStr <$> items))
        | None => Raise (OtherException "JSONDecodeError")
        end
      else Raise (OtherException "JSONDecodeError")
  | EmptyString => Raise (OtherException "JSONDecodeError")
  end.

(** A card with a title and a preview, without [data-item-id] container. *)
Definition preview_card (title preview : string) : thread_element :=
  {| query_selector := λ sel,
       match sel with
       | SelTitle => Ok (Some (found title None))
       | SelMessage => Ok (Some (found preview None))
       | _ => Ok None
       end |}.

(** *** Notions of the requests of a run *)

(** The number of requests in a trace, and the number of them that are made
    for a thread just announced as new: the [EvPost] that directly follow
    an [EvNewThread]. *)
Definition requests (tr : list event) : nat :=
  length (filter (λ ev, Is_true (is_post ev)) tr).

Fixpoint announced_requests (tr : list event) : nat :=
  match tr with
  | [] => 0
  | ev :: tr' =>
      match ev, tr' with
      | EvNewThread _, EvPost _ _ _ :: _ => S (announced_requests tr')
      | _, _ => announced_requests tr'
      end
  end%nat.

(** Since the trace was [t0] and [p0] requests had been made: every request
    made since directly follows the announcement of a thread as new, none
    of these threads is the excluded one, and [posts] has counted them. *)
Definition well_announced (t0 : list event) (p0 : nat) (w : world) : Prop :=
  ∃ sent,
    trace w = t0 ++ sent ∧
    head (is_post <$> sent) ≠ Some true ∧
    requests sent = announced_requests sent ∧
    posts w = (p0 + requests sent)%nat ∧
    "1303609863024148602" ∉ announced sent.

(** ** Properties *)

(** The oracles a statement does not mention are put aside, so that no lemma
    depends on more of them than its statement says. *)
Ltac clear_unused :=
  try clear WEBHOOK_URL; try clear ROLE_PING_ID; try clear hash;
  try clear json_loads; try clear json_dumps; try clear requests_post;
  try clear file_write; try clear utcnow_isoformat.

Ltac py_unfold :=
  cbv [bind ret raise lift try_except modify gets sleep append record].

(** *** Slices and the last entries of a list *)

Lemma last_entries_length {A} (n : nat) (l : list A) :
  length (last_entries n l) = (length l `min` n)%nat.
Proof. clear_unused. unfold last_entries. rewrite length_drop. lia. Qed.

Lemma last_entries_suffix {A} (n : nat) (l : list A) :
  last_entries n l `suffix_of` l.
Proof. clear_unused. apply suffix_drop. Qed.

Lemma last_entries_all {A} (n : nat) (l : list A) :
  (length l ≤ n)%nat → last_entries n l = l.
Proof.
  clear_unused.
  intros Hle. unfold last_entries.
  by replace (length l - n)%nat with 0%nat by lia.
Qed.

(** The last entries of a list are those of any long enough suffix. *)
Lemma last_entries_app {A} (n : nat) (l1 l2 : list A) :
  (n ≤ length l2)%nat → last_entries n (l1 ++ l2) = last_entries n l2.
Proof.
  clear_unused.
  intros Hle. unfold last_entries.
  rewrite length_app, drop_app.
  replace (length l1 + length l2 - n - length l1)%nat
    with (length l2 - n)%nat by lia.
  rewrite drop_ge; [done | lia].
Qed.

(** Truncation keeps a short enough suffix whole. *)
Lemma last_entries_keeps {A} (n : nat) (l1 l2 : list A) :
  (length l2 ≤ n)%nat → ∃ l1', last_entries n (l1 ++ l2) = l1' ++ l2.
Proof.
  clear_unused.
  intros Hle. unfold last_entries.
  rewrite length_app, drop_app.
  replace (length l1 + length l2 - n - length l1)%nat with 0%nat by lia.
  by eexists.
Qed.

Lemma last_entries_last {A} (n : nat) (l : list A) (x : A) :
  (0 < n)%nat → x ∈ last_entries n (l ++ [x]).
Proof.
  clear_unused.
  intros Hn. destruct (last_entries_keeps n l [x]) as [l' ->]; [simpl; lia|].
  set_solver.
Qed.

(** [l[-n:]] for a positive [n]. *)
Lemma slice_from_neg {A} (n : Z) (l : list A) :
  0 < n → slice_from (- n) l = last_entries (Z.to_nat n) l.
Proof.
  clear_unused.
  intros Hn. unfold slice_from, last_entries.
  destruct (Z.ltb_spec (- n) 0); [|lia]. f_equal. lia.
Qed.

(** [l[-0:]] is [l[0:]]: nothing is dropped. *)
Lemma slice_from_zero {A} (l : list A) : slice_from (- 0) l = l.
Proof. clear_unused. unfold slice_from. simpl. rewrite Z.min_l by lia. done. Qed.

(** *** The trace *)

Lemma notifications_app i (tr1 tr2 : list event) :
  head (is_post <$> tr2) ≠ Some true →
  notifications i (tr1 ++ tr2) = (notifications i tr1 + notifications i tr2)%nat.
Proof.
  clear_unused.
  intros Hhead. induction tr1 as [|ev tr1 IH]; [done|].
  simpl. rewrite IH. destruct ev; try done.
  destruct tr1 as [|ev' tr1]; simpl.
  - destruct tr2 as [|[] tr2]; simpl in *; done.
  - destruct ev'; try done. case_bool_decide; lia.
Qed.

Lemma notifications_snoc i (tr : list event) ev :
  is_post ev = false → is_new_thread ev = false →
  notifications i (tr ++ [ev]) = notifications i tr.
Proof.
  clear_unused.
  intros Hp Hn. rewrite notifications_app by (destruct ev; done).
  destruct ev; simpl in *; try done; lia.
Qed.

Lemma notifications_new i j (tr : list event) url payload outcome ev :
  is_post ev = false → is_new_thread ev = false →
  notifications i (tr ++ [EvNewThread j; EvPost url payload outcome; ev])
  = ((if bool_decide (j = i) then 1 else 0) + notifications i tr)%nat.
Proof.
  clear_unused.
  intros Hp Hn. rewrite notifications_app by done.
  simpl. destruct ev; simpl in *; try done; case_bool_decide; lia.
Qed.

(** *** The seen store *)

(** [save_seen_threads] returns, whatever the file system does. *)
Lemma save_seen_threads_spec w :
  ∃ w', save_seen_threads w = (Ok tt, w') ∧
    seen_threads w' = slice_from (- max_seen) (seen_threads w) ∧
    trace w' = trace w ++ [EvDump (seen_threads w') (file_write (writes w))] ∧
    threads_file w' = written (file_write (writes w)) (seen_threads w') (threads_file w) ∧
    writes w' = S (writes w) ∧ posts w' = posts w ∧
    clock w' = clock w ∧ scroll_counter w' = scroll_counter w.
Proof.
  clear_unused.
  unfold save_seen_threads. py_unfold. simpl.
  destruct (file_write (writes w)); simpl; eexists; (split; [reflexivity|]); simpl; done.
Qed.

Lemma record_spec thread_id w :
  ∃ w', record thread_id w = (Ok tt, w') ∧
    seen_threads w' = slice_from (- max_seen) (seen_threads w ++ [thread_id]) ∧
    trace w' = trace w ++ [EvDump (seen_threads w') (file_write (writes w))] ∧
    threads_file w' = written (file_write (writes w)) (seen_threads w') (threads_file w) ∧
    writes w' = S (writes w) ∧ posts w' = posts w ∧
    clock w' = clock w ∧ scroll_counter w' = scroll_counter w.
Proof.
  clear_unused.
  unfold record, append, bind at 1, gets, modify, bind at 1.
  destruct (save_seen_threads_spec (set_seen_threads (seen_threads w ++ [thread_id]) w))
    as (w' & -> & ?). by exists w'.
Qed.

(** *** Thread data *)

Lemma thread_data_dict_lookup thread_id title author content url timestamp :
  let d := thread_data_dict thread_id title author content url timestamp in
  d !! "id" = Some thread_id ∧ d !! "title" = Some (Some title) ∧
  d !! "author" = Some (Some author) ∧ d !! "content" = Some (Some content) ∧
  d !! "url" = Some (Some url) ∧ d !! "timestamp" = Some timestamp.
Proof. clear_unused. repeat split; reflexivity. Qed.

Lemma thread_data_dict_get thread_id title author content url timestamp dflt :
  let d := thread_data_dict thread_id title author content url timestamp in
  dict_get d "id" dflt = thread_id ∧ dict_get d "title" dflt = Some title ∧
  dict_get d "author" dflt = Some author ∧ dict_get d "content" dflt = Some content ∧
  dict_get d "url" dflt = Some url ∧ dict_get d "timestamp" dflt = timestamp.
Proof. clear_unused. repeat split; reflexivity. Qed.

Lemma thread_data_dict_nonempty thread_id title author content url timestamp :
  thread_data_dict thread_id title author content url timestamp ≠ ∅.
Proof.
  clear_unused.
  intros Hd. apply (f_equal (λ d : gmap string pyval, d !! "id")) in Hd.
  pose proof (thread_data_dict_lookup thread_id title author content url timestamp)
    as (Hid & _).
  simpl in Hid. rewrite Hid in Hd. discriminate.
Qed.

Lemma thread_id_of_dict thread_id title author content url timestamp w :
  thread_id_of (thread_data_dict thread_id title author content url timestamp) w
  = (Ok (id_or_fallback thread_id url title), w).
Proof.
  clear_unused.
  pose proof (thread_data_dict_get thread_id title author content url timestamp)
    as Hget. simpl in Hget.
  unfold thread_id_of, id_or_fallback.
  destruct (Hget None) as (-> & _).
  destruct (Hget (Some "")) as (_ & -> & _ & _ & -> & _).
  destruct thread_id as [s|]; simpl; [case_bool_decide|]; done.
Qed.

(** *** [extract_thread_data] *)

Ltac extractor_raised :=
  left; split;
  [ first
      [ eapply query_raises; simpl; eassumption
      | eapply inner_text_raises; [| simpl; eassumption | eassumption ]; tauto
      | eapply item_id_raises; [ simpl; eassumption | eassumption ]
      | eapply datetime_raises; [ simpl; eassumption | eassumption ] ]
  | intros w; reflexivity ].

Ltac no_extractor_raises :=
  let Hr := fresh "Hr" in
  intros Hr;
  destruct Hr as [[] ? ?|? ? ? [?|[?|?]] ? ?|? ? ? ?|? ? ? ?];
  simpl in *; simplify_eq.

(** Either a call of the extractor raises and it returns [None], with the
    world as it was, or it returns the data of the card, having read the
    clock at most once. *)
Lemma extract_thread_data_cases el :
  (extractor_raises el ∧ ∀ w, extract_thread_data el w = (Ok None, w)) ∨
  (¬ extractor_raises el ∧
   ∃ thread_id title author content url,
     (∀ w, ∃ timestamp w',
        extract_thread_data el w
        = (Ok (Some (thread_data_dict thread_id title author content url timestamp)), w')
        ∧ (w' = w ∨ w' = tick_clock w)) ∧
     (query_selector el SelTitle = Ok None → title = "Untitled Thread") ∧
     (query_selector el SelAuthor = Ok None → author = "Unknown") ∧
     (query_selector el SelMessage = Ok None → content = "") ∧
     (query_selector el SelContainer = Ok None → thread_id = None ∧ url = "")).
Proof.
  clear_unused.
  destruct el as [q].
  cbv [extract_thread_data bind ret raise lift try_except modify gets fst snd
       query_selector].
  destruct (q SelTitle) as [[h1|]|e1] eqn:Hq1;
    [destruct (inner_text h1) as [title|e1] eqn:Hh1| |]; try extractor_raised.
  all: destruct (q SelAuthor) as [[h2|]|e2] eqn:Hq2;
    [destruct (inner_text h2) as [author|e2] eqn:Hh2| |]; try extractor_raised.
  all: destruct (q SelMessage) as [[h3|]|e3] eqn:Hq3;
    [destruct (inner_text h3) as [content|e3] eqn:Hh3| |]; try extractor_raised.
  all: destruct (q SelContainer) as [[h4|]|e4] eqn:Hq4;
    [destruct (get_attribute h4 "data-item-id") as [thread_id|e4] eqn:Hh4| |];
    try extractor_raised.
  all: destruct (q SelTime) as [[h5|]|e5] eqn:Hq5;
    [destruct (get_attribute h5 "datetime") as [timestamp|e5] eqn:Hh5| |];
    try extractor_raised.
  all: right; split; [no_extractor_raises; congruence|].
  all: do 5 eexists; split;
    [ intros w;
      first [ destruct (falsy timestamp) | change (falsy None) with true; cbv iota ];
      (do 2 eexists; (split; [reflexivity | auto]))
    | simpl; repeat split; intros; simplify_eq; reflexivity ].
Qed.

Lemma extract_thread_data_raises el w :
  extractor_raises el → extract_thread_data el w = (Ok None, w).
Proof.
  clear_unused.
  intros Hr. destruct (extract_thread_data_cases el) as [[_ Hex]|[Hnr _]]; [done|].
  by destruct Hnr.
Qed.

(** The identifier of a card does not depend on the world the card is
    looked at in. *)
Lemma candidate_id_spec el :
  match candidate_id el with
  | None => ∀ w, extract_thread_data el w = (Ok None, w)
  | Some i =>
      ∀ w, ∃ thread_data w',
        extract_thread_data el w = (Ok (Some thread_data), w') ∧
        (w' = w ∨ w' = tick_clock w) ∧
        thread_data ≠ ∅ ∧
        (∀ w1, thread_id_of thread_data w1 = (Ok i, w1)) ∧
        ∃ content, dict_get thread_data "content" (Some "") = Some content
  end.
Proof.
  clear_unused.
  unfold candidate_id.
  destruct (extract_thread_data_cases el)
    as [[_ Hex]|(_ & thread_id & title & author & content & url & Hex & _)].
  { by rewrite Hex. }
  destruct (Hex empty_world) as (ts0 & w0 & -> & _).
  rewrite bool_decide_eq_false_2 by apply thread_data_dict_nonempty.
  rewrite thread_id_of_dict.
  intros w. destruct (Hex w) as (ts & w' & -> & Hw').
  eexists _, _. split; [done|]. split; [done|].
  split; [apply thread_data_dict_nonempty|].
  split; [intros w1; apply thread_id_of_dict|].
  exists content. apply thread_data_dict_get.
Qed.

(** *** [send_payload], [post_new_thread_webhook] *)

(** [send_payload] returns whatever the request does: the status code, or
    [None] when it raised. *)
Lemma send_payload_spec payload w :
  ∃ w', send_payload payload w
        = (Ok (match requests_post (posts w) with
               | Ok status_code => Some status_code
               | Raise _ => None
               end), w') ∧
    trace w' = trace w ++ [EvPost WEBHOOK_URL payload (requests_post (posts w))] ∧
    posts w' = S (posts w) ∧
    seen_threads w' = seen_threads w ∧ threads_file w' = threads_file w ∧
    writes w' = writes w ∧ clock w' = clock w ∧
    scroll_counter w' = scroll_counter w.
Proof.
  clear_unused.
  unfold send_payload. py_unfold. simpl.
  destruct (requests_post (posts w)); eexists; (split; [reflexivity|]); done.
Qed.

Lemma post_new_thread_webhook_spec thread_data content w :
  dict_get thread_data "content" (Some "") = Some content →
  ∃ payload w',
    post_new_thread_webhook thread_data w = (Ok tt, w') ∧
    trace w' = trace w ++ [EvPost WEBHOOK_URL payload (requests_post (posts w))] ∧
    posts w' = S (posts w) ∧
    seen_threads w' = seen_threads w ∧ threads_file w' = threads_file w ∧
    writes w' = writes w ∧ scroll_counter w' = scroll_counter w.
Proof.
  clear_unused.
  intros Hcontent. unfold post_new_thread_webhook.
  rewrite Hcontent. cbv [bind gets modify py_strip ret].
  match goal with
  | |- context [send_payload ?p ?w1] =>
      destruct (send_payload_spec p w1) as (w' & -> & Htr & Hp & Hs & Hf & Hw & _ & Hc)
  end.
  eexists _, w'. split; [reflexivity|]. simpl in *. done.
Qed.

(** *** [process_thread] *)

(** No data: the card is passed over and nothing changes. *)
Lemma process_thread_skip el w :
  candidate_id el = None → process_thread el w = (Ok tt, w).
Proof.
  clear_unused.
  intros Hid. pose proof (candidate_id_spec el) as Hex. rewrite Hid in Hex.
  unfold process_thread, bind. by rewrite Hex.
Qed.

(** The blocked thread: recorded, never announced. *)
Lemma process_thread_blocked el w :
  candidate_id el = Some "1303609863024148602" →
  ∃ w', process_thread el w = (Ok tt, w') ∧
    seen_threads w'
    = slice_from (- max_seen) (seen_threads w ++ ["1303609863024148602"]) ∧
    trace w' = trace w ++ [EvDump (seen_threads w') (file_write (writes w))] ∧
    threads_file w' = written (file_write (writes w)) (seen_threads w') (threads_file w) ∧
    writes w' = S (writes w) ∧ posts w' = posts w ∧
    scroll_counter w' = scroll_counter w.
Proof.
  clear_unused.
  intros Hid. pose proof (candidate_id_spec el) as Hex. rewrite Hid in Hex.
  destruct (Hex w) as (d & w1 & Hd & Hw1 & Hne & Htid & _).
  unfold process_thread, bind at 1. rewrite Hd.
  rewrite bool_decide_eq_false_2 by done.
  unfold bind at 1. rewrite Htid.
  rewrite bool_decide_eq_true_2 by done.
  destruct (record_spec "1303609863024148602" w1) as (w' & Hrec & Hs & Ht & Hf & Hw & Hp & _ & Hc).
  unfold record in Hrec. rewrite Hrec.
  exists w'. split; [done|].
  destruct Hw1 as [->| ->]; simpl in *; done.
Qed.

(** A thread that is in the list: nothing is sent, nothing is recorded. *)
Lemma process_thread_seen el i w :
  candidate_id el = Some i → i ≠ "1303609863024148602" →
  i ∈ seen_threads w →
  ∃ w', process_thread el w = (Ok tt, w') ∧
    seen_threads w' = seen_threads w ∧ trace w' = trace w ∧
    threads_file w' = threads_file w ∧
    writes w' = writes w ∧ posts w' = posts w ∧
    scroll_counter w' = scroll_counter w.
Proof.
  clear_unused.
  intros Hid Hnb Hin. pose proof (candidate_id_spec el) as Hex. rewrite Hid in Hex.
  destruct (Hex w) as (d & w1 & Hd & Hw1 & Hne & Htid & _).
  unfold process_thread, bind at 1. rewrite Hd.
  rewrite bool_decide_eq_false_2 by done.
  unfold bind at 1. rewrite Htid.
  rewrite bool_decide_eq_false_2 by done.
  unfold bind, gets, ret.
  rewrite bool_decide_eq_false_2 by (destruct Hw1 as [->| ->]; simpl; auto).
  exists w1. split; [done|].
  destruct Hw1 as [->| ->]; simpl in *; done.
Qed.

(** A thread that is not in the list: announced, one request, recorded. *)
Lemma process_thread_new el i w :
  candidate_id el = Some i → i ≠ "1303609863024148602" →
  i ∉ seen_threads w →
  ∃ payload w', process_thread el w = (Ok tt, w') ∧
    seen_threads w' = slice_from (- max_seen) (seen_threads w ++ [i]) ∧
    trace w' = trace w ++ [EvNewThread i;
                           EvPost WEBHOOK_URL payload (requests_post (posts w));
                           EvDump (seen_threads w') (file_write (writes w))] ∧
    threads_file w' = written (file_write (writes w)) (seen_threads w') (threads_file w) ∧
    writes w' = S (writes w) ∧ posts w' = S (posts w) ∧
    scroll_counter w' = scroll_counter w.
Proof.
  clear_unused.
  intros Hid Hnb Hin. pose proof (candidate_id_spec el) as Hex. rewrite Hid in Hex.
  destruct (Hex w) as (d & w1 & Hd & Hw1 & Hne & Htid & content & Hcontent).
  unfold process_thread, bind at 1. rewrite Hd.
  rewrite bool_decide_eq_false_2 by done.
  unfold bind at 1. rewrite Htid.
  rewrite bool_decide_eq_false_2 by done.
  unfold bind at 1, gets.
  rewrite bool_decide_eq_true_2 by (destruct Hw1 as [->| ->]; simpl; auto).
  unfold bind at 1, modify.
  destruct (post_new_thread_webhook_spec d content (log_event (EvNewThread i) w1) Hcontent)
    as (payload & w2 & Hpost & Ht2 & Hp2 & Hs2 & Hf2 & Hw2 & Hc2).
  unfold bind at 1. rewrite Hpost.
  destruct (record_spec i w2) as (w' & Hrec & Hs & Ht & Hf & Hw & Hp & _ & Hc).
  unfold record in Hrec. rewrite Hrec.
  exists payload, w'. split; [done|].
  destruct Hw1 as [->| ->]; simpl in *.
  all: split; [by rewrite Hs, Hs2|].
  all: rewrite Ht, Hf, Hw, Hp, Hc, Ht2, Hp2, Hf2, Hw2, Hc2.
  all: by rewrite <- !(assoc_L (++)).
Qed.

(** [process_thread] returns, whatever the card, the endpoint and the file
    system do. *)
Lemma process_thread_returns el w : (process_thread el w).1 = Ok tt.
Proof.
  clear_unused.
  destruct (candidate_id el) as [i|] eqn:Hid.
  - destruct (decide (i = "1303609863024148602")) as [->|Hnb].
    { by destruct (process_thread_blocked el w Hid) as (? & -> & _). }
    destruct (decide (i ∈ seen_threads w)).
    + by destruct (process_thread_seen el i w) as (? & -> & _).
    + by destruct (process_thread_new el i w) as (? & ? & -> & _).
  - by rewrite process_thread_skip.
Qed.

(** *** Loops over lists *)

Lemma for_each_app {A} (body : A → Py unit) (xs ys : list A) w :
  for_each body (xs ++ ys) w
  = match for_each body xs w with
    | (Ok _, w') => for_each body ys w'
    | (Raise e, w') => (Raise e, w')
    end.
Proof.
  clear_unused.
  revert w. induction xs as [|x xs IH]; intros w; simpl; [done|].
  unfold bind. destruct (body x w) as [[[]|e] w1]; [apply IH|done].
Qed.

Lemma for_each_returns {A} (body : A → Py unit) (xs : list A) w :
  (∀ x w, (body x w).1 = Ok tt) → (for_each body xs w).1 = Ok tt.
Proof.
  clear_unused.
  intros Hbody. revert w. induction xs as [|x xs IH]; intros w; simpl; [done|].
  unfold bind. specialize (Hbody x w).
  destruct (body x w) as [[[]|e] w1]; simpl in *; [apply IH|done].
Qed.

(** *** The bound of the seen store *)

Hypothesis max_seen_pos : 0 < max_seen.

Lemma last_entries_idemp {A} (n : nat) (l l' : list A) :
  last_entries n (last_entries n l ++ l') = last_entries n (l ++ l').
Proof.
  clear_unused.
  destruct (decide (length l ≤ n)%nat) as [Hle|Hgt].
  { by rewrite (last_entries_all n l). }
  unfold last_entries at 1 3. rewrite !length_app, last_entries_length.
  unfold last_entries.
  rewrite <- (drop_app_le l l' (length l - n)) by lia.
  rewrite drop_drop. f_equal. lia.
Qed.

Lemma for_each_record_spec ids w :
  ∃ w', for_each record ids w = (Ok tt, w') ∧
    trace w' = trace w ++ dumps (seen_threads w) (writes w) ids ∧
    writes w' = (writes w + length ids)%nat ∧
    posts w' = posts w ∧
    (ids ≠ [] →
     seen_threads w'
     = last_entries (Z.to_nat max_seen) (seen_threads w ++ ids)) ∧
    (∀ ids' thread_id,
       ids = ids' ++ [thread_id] →
       threads_file w'
       = written (file_write (writes w + length ids')) (seen_threads w')
           (threads_file (for_each record ids' w).2)).
Proof.
  clear_unused.
  induction ids as [|thread_id ids IH] using rev_ind.
  { exists w. simpl. unfold dumps. simpl. rewrite app_nil_r, Nat.add_0_r.
    repeat split; try done. intros [] ? ?; done. }
  destruct IH as (w1 & Hrun & Htr & Hw & Hp & Hseen & _).
  rewrite for_each_app, Hrun. simpl. unfold bind at 1.
  destruct (record_spec thread_id w1) as (w' & -> & Hs' & Ht' & Hf' & Hw' & Hp' & _).
  exists w'. split; [done|].
  assert (seen_threads w'
          = last_entries (Z.to_nat max_seen) (seen_threads w ++ ids ++ [thread_id]))
    as Hs''.
  { rewrite Hs', slice_from_neg by done.
    destruct ids as [|id0 ids0] using rev_ind.
    - simpl in Hrun. injection Hrun as <-. done.
    - rewrite Hseen by (by destruct ids0). by rewrite last_entries_idemp, <- (assoc_L (++)). }
  split_and!.
  - rewrite Ht', Htr, <- (assoc_L (++)). f_equal.
    unfold dumps. rewrite imap_app. simpl. rewrite Nat.add_0_r.
    f_equal.
    + apply imap_ext. intros k x Hk. simpl.
      apply lookup_lt_Some in Hk.
      by rewrite take_app_le by lia.
    + rewrite Hw, Hs''. repeat f_equal.
      rewrite take_ge; [done|]. rewrite length_app. simpl. lia.
  - rewrite Hw', Hw, length_app. simpl. lia.
  - congruence.
  - intros _. by rewrite Hs'', (assoc_L (++)).
  - intros ids' thread_id' Heq. apply app_inj_tail in Heq as [-> ->].
    by rewrite Hf', Hw, Hrun.
Qed.

(** C10: recording an identifier truncates the in-memory list itself to its
    last [max_seen] entries before the write is attempted: the list handed
    to [json.dump] is the truncated one, and after the call the list in
    memory holds the last [max_seen] identifiers, the new one among them,
    whatever the write does; when opening the file fails the file is as it
    was and the list is truncated all the same. *)
Theorem record_truncates_in_memory thread_id w :
  ∃ w', record thread_id w = (Ok tt, w') ∧
    seen_threads w'
    = last_entries (Z.to_nat max_seen) (seen_threads w ++ [thread_id]) ∧
    (length (seen_threads w') ≤ Z.to_nat max_seen)%nat ∧
    thread_id ∈ seen_threads w' ∧
    trace w' = trace w ++ [EvDump (seen_threads w') (file_write (writes w))] ∧
    (∀ e, file_write (writes w) = OpenRaises e → threads_file w' = threads_file w).
Proof.
  clear_unused.
  destruct (record_spec thread_id w) as (w' & Hrec & Hs & Ht & Hf & _).
  rewrite slice_from_neg in Hs by done.
  exists w'. split_and!; try done.
  - rewrite Hs, last_entries_length. lia.
  - rewrite Hs. apply last_entries_last. lia.
  - intros e He. by rewrite Hf, He.
Qed.

(** C2: whatever identifiers are recorded one after the other, every write
    is given the last [max_seen] entries of the list as loaded followed by
    the identifiers recorded so far: at most [max_seen] entries, the most
    recent ones, the oldest dropped first; a write that succeeds leaves
    exactly that sequence in the file. *)
Theorem persisted_bounded_fifo ids w :
  ∃ w', for_each record ids w = (Ok tt, w') ∧
    trace w' = trace w ++ dumps (seen_threads w) (writes w) ids ∧
    (∀ seen_list outcome,
       EvDump seen_list outcome ∈ dumps (seen_threads w) (writes w) ids →
       (length seen_list ≤ Z.to_nat max_seen)%nat ∧
       ∃ recorded,
         recorded `prefix_of` ids ∧
         seen_list `suffix_of` seen_threads w ++ recorded ∧
         seen_list = last_entries (Z.to_nat max_seen) (seen_threads w ++ recorded)) ∧
    (∀ ids' thread_id,
       ids = ids' ++ [thread_id] →
       file_write (writes w + length ids') = WriteOk →
       threads_file w'
       = File (Ok (json_dumps
                     (JArr (JStr <$> last_entries (Z.to_nat max_seen)
                                       (seen_threads w ++ ids)))))).
Proof.
  clear_unused.
  destruct (for_each_record_spec ids w) as (w' & Hrun & Htr & _ & _ & Hseen & Hfile).
  exists w'. split_and!; try done.
  - intros seen_list outcome Hin. unfold dumps in Hin.
    apply elem_of_lookup_imap_1 in Hin as (k & thread_id & Heq & _).
    injection Heq as -> ->. split.
    + rewrite last_entries_length. lia.
    + exists (take (S k) ids). split_and!; [apply prefix_take| |done].
      apply last_entries_suffix.
  - intros ids' thread_id Hids Hok.
    rewrite (Hfile _ _ Hids), Hok. simpl.
    rewrite Hseen; [done|]. subst ids. by destruct ids'.
Qed.

(** C3: a card of the excluded thread is recorded and never announced,
    whatever the list holds: no request is sent, the identifier is appended
    to the list (again, when it was there already, as the test comes before
    the membership test) and is in the list afterwards. *)
Theorem excluded_marked_seen_not_notified el w :
  candidate_id el = Some "1303609863024148602" →
  ∃ w', process_thread el w = (Ok tt, w') ∧
    "1303609863024148602" ∈ seen_threads w' ∧
    seen_threads w'
    = last_entries (Z.to_nat max_seen) (seen_threads w ++ ["1303609863024148602"]) ∧
    posts w' = posts w ∧
    trace w' = trace w ++ [EvDump (seen_threads w') (file_write (writes w))] ∧
    (∀ i, notifications i (trace w') = notifications i (trace w)).
Proof.
  clear_unused.
  intros Hid.
  destruct (process_thread_blocked el w Hid) as (w' & Hrun & Hs & Ht & _ & _ & Hp & _).
  rewrite slice_from_neg in Hs by done.
  exists w'. split_and!; try done.
  - rewrite Hs. apply last_entries_last. lia.
  - intros i. rewrite Ht. by apply notifications_snoc.
Qed.


(** *** The loop *)

Lemma for_each_process_thread_returns els w :
  (for_each process_thread els w).1 = Ok tt.
Proof. clear_unused. apply for_each_returns, process_thread_returns. Qed.

(** An iteration depends on the cards only through the loop over them. *)
Lemma iteration_thread_elements page els els' w w' :
  query_selector_all page = Ok els →
  (wait_for_selector page = Ok tt →
   for_each process_thread els w = for_each process_thread els' w') →
  (wait_for_selector page ≠ Ok tt → w = w') →
  iteration page w = iteration (with_thread_elements els' page) w'.
Proof.
  clear_unused.
  intros Hq Hrun Hw. unfold iteration. cbv [try_except bind lift]. simpl.
  rewrite Hq. destruct (wait_for_selector page) as [[]|e].
  - by rewrite Hrun.
  - by rewrite Hw.
Qed.

Lemma forum_monitor_loop_cons page script w :
  forum_monitor_loop (page :: script) w
  = match iteration page (set_scroll_counter 0 w) with
    | (Ok Next, w') => iterations script w'
    | (Ok Return, w') => (Ok Returned, w')
    | (Raise e, w') => (Raise e, w')
    end.
Proof.
  clear_unused.
  unfold forum_monitor_loop. cbv [bind modify]. simpl. unfold bind.
  by destruct (iteration page _) as [[[]|] ?].
Qed.

(** C4, as the code has it: when [wait_for_selector] raises Playwright's
    [TimeoutError], the handler of [PlaywrightError] takes it: the loop
    returns at once, without sleeping, and the polls after it never run. *)
Theorem timeout_ends_monitor_loop page script w :
  wait_for_selector page = Raise (PlaywrightError TimeoutError) →
  forum_monitor_loop (page :: script) w = (Ok Returned, set_scroll_counter 0 w).
Proof.
  clear_unused.
  intros Hwait. rewrite forum_monitor_loop_cons.
  unfold iteration. cbv [try_except bind lift ret]. by rewrite Hwait.
Qed.

(** An exception that is not a [PlaywrightError] is the one the loop
    recovers from: ten seconds of sleep, then the next poll. *)
Lemma other_exception_retries page script name w :
  wait_for_selector page = Raise (OtherException name) →
  forum_monitor_loop (page :: script) w
  = iterations script (log_event (EvSleep (PInt 10)) (set_scroll_counter 0 w)).
Proof.
  clear_unused.
  intros Hwait. rewrite forum_monitor_loop_cons.
  unfold iteration. cbv [try_except bind lift ret sleep modify]. by rewrite Hwait.
Qed.

(** C5, as the code has it: when no call of the extractor raises, the card
    gives data, and a title, author or preview that is not found is
    ["Untitled Thread"], ["Unknown"] and the empty string; the default
    ["Untitled"] of [post_new_thread_webhook] is never used. *)
Theorem missing_fields_defaulted el w :
  ¬ extractor_raises el →
  ∃ thread_data w',
    extract_thread_data el w = (Ok (Some thread_data), w') ∧
    (query_selector el SelTitle = Ok None →
     dict_get thread_data "title" (Some "Untitled") = Some "Untitled Thread") ∧
    (query_selector el SelAuthor = Ok None →
     dict_get thread_data "author" None = Some "Unknown") ∧
    (query_selector el SelMessage = Ok None →
     dict_get thread_data "content" (Some "") = Some "").
Proof.
  clear_unused.
  intros Hnr.
  destruct (extract_thread_data_cases el)
    as [[Hr _]|(_ & thread_id & title & author & content & url & Hex & Ht & Ha & Hc & _)];
    [done|].
  destruct (Hex w) as (timestamp & w' & -> & _).
  pose proof (thread_data_dict_get thread_id title author content url timestamp) as Hget.
  simpl in Hget.
  eexists _, w'. split; [done|]. split_and!.
  - intros Hq. destruct (Hget (Some "Untitled")) as (_ & -> & _). by rewrite Ht.
  - intros Hq. destruct (Hget None) as (_ & _ & -> & _). by rewrite Ha.
  - intros Hq. destruct (Hget (Some "")) as (_ & _ & _ & -> & _). by rewrite Hc.
Qed.

(** C6: [load_seen_threads] returns, and leaves the world as it is: the
    empty list when the file is absent, when reading it raises and when
    its content does not parse, and what the content parses to otherwise. *)
Theorem load_seen_threads_never_raises w :
  ∃ v, load_seen_threads w = (Ok v, w) ∧
    v = match threads_file w with
        | NoFile => JArr []
        | File (Raise _) => JArr []
        | File (Ok text) =>
            match json_loads text with
            | Ok stored => stored
            | Raise _ => JArr []
            end
        end.
Proof.
  clear_unused.
  unfold load_seen_threads. cbv [bind gets try_except ret lift].
  destruct (threads_file w) as [|[text|e]]; simpl; [by eexists| |by eexists].
  cbv [lift]. destruct (json_loads text); by eexists.
Qed.

(** C8: two records without identifier (none, or an empty one) and with the
    same url and title are given the same identifier, the one built from
    the hash of the url followed by the title. *)
Theorem fallback_id_stable (d1 d2 : gmap string pyval) url title w1 w2 :
  falsy (dict_get d1 "id" None) = true →
  falsy (dict_get d2 "id" None) = true →
  dict_get d1 "url" (Some "") = Some url →
  dict_get d2 "url" (Some "") = Some url →
  dict_get d1 "title" (Some "") = Some title →
  dict_get d2 "title" (Some "") = Some title →
  thread_id_of d1 w1 = (Ok ("fallback:" +:+ pretty (hash (url +:+ title))), w1) ∧
  thread_id_of d2 w2 = (Ok ("fallback:" +:+ pretty (hash (url +:+ title))), w2).
Proof.
  clear_unused.
  intros Hid1 Hid2 Hu1 Hu2 Ht1 Ht2. unfold thread_id_of.
  rewrite Hu1, Hu2, Ht1, Ht2.
  destruct (dict_get d1 "id" None) as [s1|], (dict_get d2 "id" None) as [s2|];
    simpl in *; rewrite ?Hid1, ?Hid2; done.
Qed.

(** *** Invariants of the loop *)

Section Preserves.

Variable P : world → Prop.

Lemma preserves_ret {A} (a : A) : preserves P (ret a).
Proof. clear_unused. by intros w. Qed.

Lemma preserves_raise {A} e : preserves P (@raise A e).
Proof. clear_unused. by intros w. Qed.

Lemma preserves_lift {A} (r : result A) : preserves P (lift r).
Proof. clear_unused. by intros w. Qed.

Lemma preserves_gets {A} (f : world → A) : preserves P (gets f).
Proof. clear_unused. by intros w. Qed.

Lemma preserves_modify (f : world → world) :
  (∀ w, P w → P (f w)) → preserves P (modify f).
Proof. clear_unused. intros Hf w. apply Hf. Qed.

Lemma preserves_bind {A B} (m : Py A) (k : A → Py B) :
  preserves P m → (∀ a, preserves P (k a)) → preserves P (bind m k).
Proof.
  clear_unused.
  intros Hm Hk w Hw. unfold bind. specialize (Hm w Hw).
  destruct (m w) as [[a|e] w1]; [by apply Hk|done].
Qed.

Lemma preserves_try_except {A} (body : Py A) (handler : exn → Py A) :
  preserves P body → (∀ e, preserves P (handler e)) →
  preserves P (try_except body handler).
Proof.
  clear_unused.
  intros Hm Hk w Hw. unfold try_except. specialize (Hm w Hw).
  destruct (body w) as [[a|e] w1]; [done|by apply Hk].
Qed.

Lemma preserves_for_each {A} (body : A → Py unit) (xs : list A) :
  (∀ x, preserves P (body x)) → preserves P (for_each body xs).
Proof.
  clear_unused.
  intros Hbody. induction xs as [|x xs IH]; simpl.
  - apply preserves_ret.
  - apply preserves_bind; auto.
Qed.

Hypothesis P_pacing : ∀ ev w, is_pacing ev = true → P w → P (log_event ev w).
Hypothesis P_counter : ∀ n w, P w → P (set_scroll_counter n w).
Hypothesis P_thread : ∀ el, preserves P (process_thread el).

Ltac preserved :=
  repeat first
    [ apply preserves_ret | apply preserves_raise | apply preserves_lift
    | apply preserves_gets
    | apply preserves_modify; intros; first [by apply P_pacing | by apply P_counter]
    | apply preserves_for_each; apply P_thread
    | apply preserves_bind; [|intros ?]
    | apply preserves_try_except; [|intros ?]
    | progress unfold sleep, py_mod, page_mouse_wheel, page_reload
    | case_match ].

Lemma preserves_iteration page : preserves P (iteration page).
Proof. clear_unused. unfold iteration. preserved. Qed.

Lemma preserves_iterations script : preserves P (iterations script).
Proof.
  clear_unused.
  induction script as [|page script IH]; simpl.
  - apply preserves_ret.
  - apply preserves_bind; [apply preserves_iteration|].
    intros []; [done|apply preserves_ret].
Qed.

End Preserves.

(** *** The window of the seen store *)

Lemma in_window_recorded i j k0 (older newer : list string) k :
  length newer = (k - k0)%nat → (k0 ≤ k)%nat →
  (S k - k0 < Z.to_nat max_seen)%nat →
  ∃ older' newer',
    slice_from (- max_seen) ((older ++ i :: newer) ++ [j]) = older' ++ i :: newer' ∧
    length newer' = (S k - k0)%nat.
Proof.
  clear_unused.
  intros Hlen Hk Hlt. rewrite slice_from_neg by done.
  rewrite <- (assoc_L (++)). simpl.
  destruct (last_entries_keeps (Z.to_nat max_seen) older (i :: newer ++ [j]))
    as [older' ->].
  { simpl. rewrite length_app. simpl. lia. }
  exists older', (newer ++ [j]). split; [done|].
  rewrite length_app. simpl. lia.
Qed.

Lemma in_window_thread i k0 count el :
  i ≠ "1303609863024148602" →
  preserves (in_window i k0 count) (process_thread el).
Proof.
  clear_unused.
  intros Hnb w [Hk Hwin].
  destruct (candidate_id el) as [j|] eqn:Hid;
    [|by rewrite process_thread_skip].
  destruct (decide (j = "1303609863024148602")) as [->|Hjb].
  { destruct (process_thread_blocked el w Hid) as (w' & -> & Hs & Ht & _ & Hw & _).
    simpl. split; [lia|]. rewrite Hw. intros Hlt.
    destruct Hwin as (Hcount & older & newer & Hseen & Hlen); [lia|].
    split; [rewrite Ht; by rewrite notifications_snoc|].
    rewrite Hs, Hseen. by apply in_window_recorded. }
  destruct (decide (j ∈ seen_threads w)) as [Hin|Hnew].
  { destruct (process_thread_seen el j w Hid Hjb Hin) as (w' & -> & Hs & Ht & _ & Hw & _).
    simpl. unfold in_window. by rewrite Hw, Ht, Hs. }
  destruct (process_thread_new el j w Hid Hjb Hnew)
    as (payload & w' & -> & Hs & Ht & _ & Hw & _).
  simpl. split; [lia|]. rewrite Hw. intros Hlt.
  destruct Hwin as (Hcount & older & newer & Hseen & Hlen); [lia|].
  split.
  - rewrite Ht, notifications_new by done.
    rewrite bool_decide_eq_false_2; [done|].
    intros ->. apply Hnew. rewrite Hseen. set_solver.
  - rewrite Hs, Hseen. by apply in_window_recorded.
Qed.

Lemma in_window_pacing i k0 count ev w :
  is_pacing ev = true → in_window i k0 count w →
  in_window i k0 count (log_event ev w).
Proof.
  clear_unused.
  intros Hev [Hk Hwin]. split; [done|]. simpl. intros Hlt.
  destruct (Hwin Hlt) as [Hcount Hseen]. split; [|done].
  rewrite notifications_snoc; [done|by destruct ev..].
Qed.

Lemma in_window_iterations i k0 count script :
  i ≠ "1303609863024148602" →
  preserves (in_window i k0 count) (iterations script).
Proof.
  clear_unused.
  intros Hnb. apply preserves_iterations.
  - intros ev w. apply in_window_pacing.
  - by intros n w.
  - intros el. by apply in_window_thread.
Qed.

Lemma iterations_app script1 script2 w :
  iterations (script1 ++ script2) w
  = match iterations script1 w with
    | (Ok Running, w1) => iterations script2 w1
    | r => r
    end.
Proof.
  clear_unused.
  revert w. induction script1 as [|page script1 IH]; intros w; simpl; [done|].
  unfold bind. destruct (iteration page w) as [[[]|e] w1]; [apply IH|done..].
Qed.

Lemma forum_monitor_loop_app script1 script2 w :
  forum_monitor_loop (script1 ++ script2) w
  = match forum_monitor_loop script1 w with
    | (Ok Running, w1) => iterations script2 w1
    | r => r
    end.
Proof. clear_unused. unfold forum_monitor_loop. cbv [bind modify]. apply iterations_app. Qed.

(** An iteration, taken up again after its first cards. *)
Lemma iteration_resume page els1 els2 w :
  wait_for_selector page = Ok tt →
  query_selector_all page = Ok (els1 ++ els2) →
  iteration page w
  = iteration (with_thread_elements els2 page) (for_each process_thread els1 w).2.
Proof.
  clear_unused.
  intros Hwait Hq. apply (iteration_thread_elements page _ _ _ _ Hq).
  - intros _. rewrite for_each_app.
    pose proof (for_each_process_thread_returns els1 w) as Hret.
    by destruct (for_each process_thread els1 w) as [[[]|e] w1].
  - by rewrite Hwait.
Qed.

(** ** Further properties *)

Ltac clear_all := clear_unused; try clear max_seen_pos.

(** *** [str.strip()] *)

Lemma append_cons c a b : String c a +:+ b = String c (a +:+ b).
Proof. done. Qed.

Lemma append_nil b : "" +:+ b = b.
Proof. done. Qed.

Lemma all_space_app a b : all_space (a +:+ b) = all_space a && all_space b.
Proof.
  clear_all. induction a as [|c a IH]; [done|].
  rewrite append_cons. simpl. rewrite IH. by destruct (isspace c).
Qed.

Lemma lstrip_spec s :
  ∃ a, s = a +:+ lstrip s ∧ all_space a = true ∧ starts_with_space (lstrip s) = false.
Proof.
  clear_all. induction s as [|c s (a & Hs & Ha & Hstart)]; simpl.
  - by exists "".
  - destruct (isspace c) eqn:Hc.
    + exists (String c a). rewrite append_cons, <- Hs. simpl. by rewrite Hc, Ha.
    + exists "". rewrite append_nil. simpl. by rewrite Hc.
Qed.

Lemma rstrip_spec s :
  ∃ b, s = rstrip s +:+ b ∧ all_space b = true ∧ ends_with_space (rstrip s) = false.
Proof.
  clear_all. induction s as [|c s (b & Hs & Hb & Hend)]; simpl.
  - by exists "".
  - destruct (rstrip s) as [|c' r] eqn:Hr.
    + rewrite append_nil in Hs. subst b. destruct (isspace c) eqn:Hc.
      * exists (String c s). rewrite append_nil. simpl. by rewrite Hc, Hb.
      * exists s. rewrite append_cons, append_nil. simpl. by rewrite Hc.
    + exists b. rewrite append_cons, <- Hs. done.
Qed.

Lemma rstrip_keeps_start s :
  starts_with_space s = false → starts_with_space (rstrip s) = false.
Proof.
  clear_all. destruct s as [|c s]; simpl; [done|]. intros Hc.
  destruct (rstrip s); simpl; by rewrite ?Hc.
Qed.

Lemma lstrip_fixed s : starts_with_space s = false → lstrip s = s.
Proof. clear_all. destruct s as [|c s]; simpl; [done|]. by intros ->. Qed.

Lemma rstrip_fixed s : ends_with_space s = false → rstrip s = s.
Proof.
  clear_all. induction s as [|c s IH]; [done|].
  destruct s as [|c' s]; [simpl; by intros ->|].
  intros Hend. change (rstrip (String c (String c' s)))
    with (match rstrip (String c' s) with
          | EmptyString => if isspace c then EmptyString else String c EmptyString
          | r => String c r
          end).
  by rewrite (IH Hend).
Qed.

(** [strip] takes whitespace, and nothing else, from both ends. *)
Lemma strip_spec s :
  ∃ a b, s = a +:+ strip s +:+ b ∧ all_space a = true ∧ all_space b = true ∧
    starts_with_space (strip s) = false ∧ ends_with_space (strip s) = false.
Proof.
  clear_all. unfold strip.
  destruct (lstrip_spec s) as (a & Hs & Ha & Hstart).
  destruct (rstrip_spec (lstrip s)) as (b & Hl & Hb & Hend).
  exists a, b. split_and!; try done.
  - by rewrite <- Hl.
  - by apply rstrip_keeps_start.
Qed.

Lemma strip_fixed s :
  starts_with_space s = false → ends_with_space s = false → strip s = s.
Proof.
  clear_all. intros Hstart Hend. unfold strip.
  by rewrite (lstrip_fixed s Hstart), (rstrip_fixed s Hend).
Qed.

Lemma strip_idemp s : strip (strip s) = strip s.
Proof.
  clear_all. destruct (strip_spec s) as (_ & _ & _ & _ & _ & Hstart & Hend).
  by apply strip_fixed.
Qed.

Lemma strip_blank s : strip s = "" ↔ all_space s = true.
Proof.
  clear_all. split.
  - intros Hs. destruct (strip_spec s) as (a & b & Heq & Ha & Hb & _).
    rewrite Hs, append_nil in Heq. by rewrite Heq, all_space_app, Ha, Hb.
  - intros Hall. unfold strip.
    assert (lstrip s = "") as ->; [|done].
    induction s as [|c s IH]; simpl in *; [done|].
    apply andb_prop in Hall as [-> Hall]. by apply IH.
Qed.

(** *** What [extract_thread_data] returns *)

Ltac raised_absurd Hnr :=
  exfalso; apply Hnr;
  first
    [ eapply query_raises; simpl; eassumption
    | eapply inner_text_raises; [| simpl; eassumption | eassumption ]; tauto
    | eapply item_id_raises; [ simpl; eassumption | eassumption ]
    | eapply datetime_raises; [ simpl; eassumption | eassumption ] ].

(** The data of a card on which no call raises, field by field. *)
Lemma extract_thread_data_fields el w :
  ¬ extractor_raises el →
  extract_thread_data el w
  = (Ok (Some (thread_data_dict
                 (card_attribute el SelContainer "data-item-id")
                 (strip (default "Untitled Thread" (card_text el SelTitle)))
                 (strip (default "Unknown" (card_text el SelAuthor)))
                 (strip (default "" (card_text el SelMessage)))
                 (match query_selector el SelContainer with
                  | Ok (Some _) =>
                      DISCORD_FORUM_URL +:+ "/threads/"
                      +:+ py_str (card_attribute el SelContainer "data-item-id")
                  | _ => ""
                  end)
                 (if falsy (card_attribute el SelTime "datetime")
                  then Some (utcnow_isoformat (clock w) +:+ "Z")
                  else card_attribute el SelTime "datetime"))),
     if falsy (card_attribute el SelTime "datetime") then tick_clock w else w).
Proof.
  clear_all. destruct el as [q]. intros Hnr.
  cbv [extract_thread_data bind ret raise lift try_except modify gets fst snd
       query_selector card_text card_attribute].
  destruct (q SelTitle) as [[h1|]|e1] eqn:Hq1;
    [destruct (inner_text h1) as [title|e1] eqn:Hh1| |]; try raised_absurd Hnr.
  all: destruct (q SelAuthor) as [[h2|]|e2] eqn:Hq2;
    [destruct (inner_text h2) as [author|e2] eqn:Hh2| |]; try raised_absurd Hnr.
  all: destruct (q SelMessage) as [[h3|]|e3] eqn:Hq3;
    [destruct (inner_text h3) as [content|e3] eqn:Hh3| |]; try raised_absurd Hnr.
  all: destruct (q SelContainer) as [[h4|]|e4] eqn:Hq4;
    [destruct (get_attribute h4 "data-item-id") as [thread_id|e4] eqn:Hh4| |];
    try raised_absurd Hnr.
  all: destruct (q SelTime) as [[h5|]|e5] eqn:Hq5;
    [destruct (get_attribute h5 "datetime") as [timestamp|e5] eqn:Hh5| |];
    try raised_absurd Hnr.
  all: first [ destruct (falsy timestamp) | change (falsy None) with true; cbv iota ];
    reflexivity.
Qed.

Lemma extracted_data_exists el w :
  ¬ extractor_raises el →
  ∃ thread_id title author content url timestamp w',
    extract_thread_data el w
    = (Ok (Some (thread_data_dict thread_id title author content url timestamp)), w') ∧
    thread_id = card_attribute el SelContainer "data-item-id" ∧
    title = strip (default "Untitled Thread" (card_text el SelTitle)) ∧
    author = strip (default "Unknown" (card_text el SelAuthor)) ∧
    content = strip (default "" (card_text el SelMessage)).
Proof.
  clear_all. intros Hnr. rewrite (extract_thread_data_fields el w Hnr).
  by do 7 eexists.
Qed.

(** X1: the title, author and preview of the data of a card are the texts
    of its elements (or the placeholders) without the whitespace at both
    ends; a title element whose text is blank gives the empty title, not the
    placeholder. *)
Theorem extracted_texts_are_stripped el w :
  ¬ extractor_raises el →
  ∃ thread_data w' title author content,
    extract_thread_data el w = (Ok (Some thread_data), w') ∧
    thread_data !! "title" = Some (Some title) ∧
    thread_data !! "author" = Some (Some author) ∧
    thread_data !! "content" = Some (Some content) ∧
    title = strip (default "Untitled Thread" (card_text el SelTitle)) ∧
    author = strip (default "Unknown" (card_text el SelAuthor)) ∧
    content = strip (default "" (card_text el SelMessage)) ∧
    Forall (λ s, starts_with_space s = false ∧ ends_with_space s = false)
      [title; author; content] ∧
    (∀ text, card_text el SelTitle = Some text → all_space text = true → title = "").
Proof.
  clear_all. intros Hnr.
  destruct (extracted_data_exists el w Hnr)
    as (thread_id & title & author & content & url & timestamp & w' & Hex & _ & Ht & Ha & Hc).
  pose proof (thread_data_dict_lookup thread_id title author content url timestamp)
    as (_ & Hlt & Hla & Hlc & _).
  exists (thread_data_dict thread_id title author content url timestamp), w',
    title, author, content.
  split_and!; try done.
  - subst. repeat constructor;
      match goal with
      | |- context [strip ?s] => by destruct (strip_spec s) as (_ & _ & _ & _ & _ & ? & ?)
      end.
  - intros text Htext Hblank. rewrite Ht, Htext. simpl. by apply strip_blank.
Qed.

(** X2: the url of the data of a card follows its identifier: without
    container there is no identifier and the url is empty, with a container
    the url is the forum url, "/threads/" and the identifier as it prints. *)
Theorem extracted_url_follows_id el w :
  ¬ extractor_raises el →
  ∃ thread_data w' thread_id url,
    extract_thread_data el w = (Ok (Some thread_data), w') ∧
    thread_data !! "id" = Some thread_id ∧
    thread_data !! "url" = Some (Some url) ∧
    thread_id = card_attribute el SelContainer "data-item-id" ∧
    (query_selector el SelContainer = Ok None → thread_id = None ∧ url = "") ∧
    (∀ container, query_selector el SelContainer = Ok (Some container) →
       url = DISCORD_FORUM_URL +:+ "/threads/" +:+ py_str thread_id) ∧
    (url = "" ↔ query_selector el SelContainer = Ok None).
Proof.
  clear_all. intros Hnr. rewrite (extract_thread_data_fields el w Hnr).
  match goal with
  | |- context [thread_data_dict ?i ?t ?a ?c ?u ?ts] =>
      pose proof (thread_data_dict_lookup i t a c u ts) as (Hid & _ & _ & _ & Hurl & _);
      exists (thread_data_dict i t a c u ts)
  end.
  eexists _, _, _. split; [done|]. split; [exact Hid|]. split; [exact Hurl|].
  split; [done|]. unfold card_attribute.
  destruct (query_selector el SelContainer) as [[container|]|e] eqn:Hq.
  - split_and!; try done; split; done.
  - split_and!; try done; split; done.
  - destruct Hnr. by eapply query_raises.
Qed.

Lemma append_nonempty a b : b ≠ "" → a +:+ b ≠ "".
Proof. clear_all. by destruct a. Qed.

(** X3: the timestamp of the data of a card is never empty: it is the
    [datetime] of the card when there is one, and the reading of the clock
    followed by "Z" otherwise; only then is the clock read, and nothing else
    of the world changes. *)
Theorem extracted_timestamp_never_empty el w :
  ¬ extractor_raises el →
  ∃ thread_data w' timestamp,
    extract_thread_data el w = (Ok (Some thread_data), w') ∧
    thread_data !! "timestamp" = Some (Some timestamp) ∧
    timestamp ≠ "" ∧
    (falsy (card_attribute el SelTime "datetime") = false →
     card_attribute el SelTime "datetime" = Some timestamp ∧ w' = w) ∧
    (falsy (card_attribute el SelTime "datetime") = true →
     timestamp = utcnow_isoformat (clock w) +:+ "Z" ∧ w' = tick_clock w).
Proof.
  clear_all. intros Hnr. rewrite (extract_thread_data_fields el w Hnr).
  match goal with
  | |- context [thread_data_dict ?i ?t ?a ?c ?u ?ts] =>
      pose proof (thread_data_dict_lookup i t a c u ts) as (_ & _ & _ & _ & _ & Hts);
      exists (thread_data_dict i t a c u ts)
  end.
  simpl in Hts.
  destruct (card_attribute el SelTime "datetime") as [datetime|] eqn:Hattr; simpl in *.
  - case_bool_decide as Hempty.
    + eexists _, _. split; [done|]. split; [exact Hts|].
      split_and!; [by apply append_nonempty|done..].
    + exists w, datetime. split_and!; done.
  - eexists _, _. split; [done|]. split; [exact Hts|].
    split_and!; [by apply append_nonempty|done..].
Qed.

(** *** The identifier of a card *)

Lemma candidate_id_fields el :
  ¬ extractor_raises el →
  candidate_id el
  = Some (id_or_fallback
            (card_attribute el SelContainer "data-item-id")
            (match query_selector el SelContainer with
             | Ok (Some _) =>
                 DISCORD_FORUM_URL +:+ "/threads/"
                 +:+ py_str (card_attribute el SelContainer "data-item-id")
             | _ => ""
             end)
            (strip (default "Untitled Thread" (card_text el SelTitle)))).
Proof.
  clear_all. intros Hnr. unfold candidate_id.
  rewrite (extract_thread_data_fields el empty_world Hnr).
  rewrite bool_decide_eq_false_2 by apply thread_data_dict_nonempty.
  by rewrite thread_id_of_dict.
Qed.

Lemma candidate_id_not_raises el i :
  candidate_id el = Some i → ¬ extractor_raises el.
Proof.
  clear_all. intros Hid Hr. unfold candidate_id in Hid.
  by rewrite (extract_thread_data_raises el empty_world Hr) in Hid.
Qed.

Lemma fallback_not_blocked n : "fallback:" +:+ n ≠ "1303609863024148602".
Proof. clear_all. done. Qed.

(** X4: a card whose [data-item-id] is not empty is the thread of that
    identifier, whatever its title, author, preview and time: a thread that
    is renamed is still the same thread. *)
Theorem native_id_identifies_thread el item_id :
  ¬ extractor_raises el →
  card_attribute el SelContainer "data-item-id" = Some item_id →
  item_id ≠ "" →
  candidate_id el = Some item_id.
Proof.
  clear_all. intros Hnr Hattr Hne. rewrite (candidate_id_fields el Hnr), Hattr.
  unfold id_or_fallback. simpl. by rewrite bool_decide_eq_false_2.
Qed.

(** X5: a card without readable identifier is never taken for the excluded
    thread: its identifier begins with "fallback:". *)
Theorem fallback_id_never_excluded el i :
  falsy (card_attribute el SelContainer "data-item-id") = true →
  candidate_id el = Some i →
  i ≠ "1303609863024148602" ∧ ∃ n : Z, i = "fallback:" +:+ pretty n.
Proof.
  clear_all. intros Hfalsy Hid.
  rewrite (candidate_id_fields el (candidate_id_not_raises el i Hid)) in Hid.
  unfold id_or_fallback in Hid. rewrite Hfalsy in Hid. injection Hid as <-.
  split; [apply fallback_not_blocked|by eexists].
Qed.

(** What a card does to the world, in one of three ways: nothing that
    shows, a record without request, or a request and a record. *)
Lemma process_thread_step el w :
  ∃ w', process_thread el w = (Ok tt, w') ∧
    scroll_counter w' = scroll_counter w ∧
    ((seen_threads w' = seen_threads w ∧ trace w' = trace w ∧
      threads_file w' = threads_file w ∧ writes w' = writes w ∧ posts w' = posts w ∧
      ∀ i, candidate_id el = Some i →
           i ≠ "1303609863024148602" ∧ i ∈ seen_threads w)
     ∨ (candidate_id el = Some "1303609863024148602" ∧
        seen_threads w'
        = slice_from (- max_seen) (seen_threads w ++ ["1303609863024148602"]) ∧
        trace w' = trace w ++ [EvDump (seen_threads w') (file_write (writes w))] ∧
        threads_file w'
        = written (file_write (writes w)) (seen_threads w') (threads_file w) ∧
        writes w' = S (writes w) ∧ posts w' = posts w)
     ∨ (∃ i payload,
          candidate_id el = Some i ∧ i ≠ "1303609863024148602" ∧
          (i ∉ seen_threads w) ∧
          seen_threads w' = slice_from (- max_seen) (seen_threads w ++ [i]) ∧
          trace w' = trace w ++ [EvNewThread i;
                                 EvPost WEBHOOK_URL payload (requests_post (posts w));
                                 EvDump (seen_threads w') (file_write (writes w))] ∧
          threads_file w'
          = written (file_write (writes w)) (seen_threads w') (threads_file w) ∧
          writes w' = S (writes w) ∧ posts w' = S (posts w))).
Proof.
  clear_all. destruct (candidate_id el) as [i|] eqn:Hid.
  - destruct (decide (i = "1303609863024148602")) as [->|Hnb].
    { destruct (process_thread_blocked el w Hid) as (w' & Hrun & ? & ? & ? & ? & ? & ?).
      exists w'. split_and!; try done. right. left. done. }
    destruct (decide (i ∈ seen_threads w)) as [Hin|Hnew].
    + destruct (process_thread_seen el i w Hid Hnb Hin) as (w' & Hrun & ? & ? & ? & ? & ? & ?).
      exists w'. split_and!; try done. left. split_and!; try done.
      by intros ? [= <-].
    + destruct (process_thread_new el i w Hid Hnb Hnew)
        as (payload & w' & Hrun & ? & ? & ? & ? & ? & ?).
      exists w'. split_and!; try done. right. right. by exists i, payload.
  - exists w. rewrite (process_thread_skip el w Hid). split_and!; try done.
    left. split_and!; done.
Qed.

Lemma slice_from_drop {A} (start : Z) (l : list A) : ∃ k, slice_from start l = drop k l.
Proof. clear_all. unfold slice_from. by eexists. Qed.

(** X6: two cards without container and with the same title, up to the
    whitespace around it, are one thread for the loop, whatever else they
    show: once the first has been handled, the second sends nothing. *)
Theorem untagged_cards_identified_by_title el1 el2 w :
  ¬ extractor_raises el1 → ¬ extractor_raises el2 →
  query_selector el1 SelContainer = Ok None →
  query_selector el2 SelContainer = Ok None →
  strip (default "Untitled Thread" (card_text el1 SelTitle))
  = strip (default "Untitled Thread" (card_text el2 SelTitle)) →
  candidate_id el1 = candidate_id el2 ∧
  ∃ w1 w2,
    process_thread el1 w = (Ok tt, w1) ∧
    process_thread el2 w1 = (Ok tt, w2) ∧
    posts w2 = posts w1 ∧ trace w2 = trace w1 ∧ seen_threads w2 = seen_threads w1.
Proof.
  clear_unused. intros Hnr1 Hnr2 Hc1 Hc2 Htitle.
  pose proof (candidate_id_fields el1 Hnr1) as Hid1.
  pose proof (candidate_id_fields el2 Hnr2) as Hid2.
  unfold card_attribute in Hid1, Hid2. rewrite Hc1 in Hid1. rewrite Hc2 in Hid2.
  rewrite Htitle in Hid1. unfold id_or_fallback in Hid1, Hid2. simpl in Hid1, Hid2.
  split; [congruence|].
  set (i := "fallback:" +:+ pretty (hash ("" +:+ strip (default "Untitled Thread"
                                                       (card_text el2 SelTitle))))) in *.
  assert (i ≠ "1303609863024148602") as Hnb by apply fallback_not_blocked.
  assert (∃ w1, process_thread el1 w = (Ok tt, w1) ∧ i ∈ seen_threads w1) as (w1 & Hrun1 & Hin).
  { destruct (process_thread_step el1 w)
      as (w1 & Hrun & _ & [(Hs & _ & _ & _ & _ & Hseen)|[(Hb & _)|(j & p & Hj & _ & _ & Hs & _)]]).
    - exists w1. split; [done|]. rewrite Hs. by apply Hseen.
    - congruence.
    - exists w1. split; [done|]. rewrite Hs, slice_from_neg by done.
      replace j with i by congruence. apply last_entries_last. lia. }
  destruct (process_thread_seen el2 i w1 Hid2 Hnb Hin) as (w2 & Hrun2 & ? & ? & _ & _ & ? & _).
  by exists w1, w2.
Qed.

(** X7: two records without identifier are given the same identifier exactly
    when [hash] gives the same number for their url followed by their
    title. *)
Theorem fallback_ids_collide_with_hash (d1 d2 : gmap string pyval) url1 title1 url2 title2 w :
  falsy (dict_get d1 "id" None) = true →
  falsy (dict_get d2 "id" None) = true →
  dict_get d1 "url" (Some "") = Some url1 →
  dict_get d1 "title" (Some "") = Some title1 →
  dict_get d2 "url" (Some "") = Some url2 →
  dict_get d2 "title" (Some "") = Some title2 →
  (thread_id_of d1 w).1 = (thread_id_of d2 w).1
  ↔ hash (url1 +:+ title1) = hash (url2 +:+ title2).
Proof.
  clear_all. intros Hid1 Hid2 Hu1 Ht1 Hu2 Ht2. unfold thread_id_of.
  rewrite Hu1, Hu2, Ht1, Ht2.
  assert (∀ a b : Z, Ok (A:=string) ("fallback:" +:+ pretty a) = Ok ("fallback:" +:+ pretty b)
                     ↔ a = b) as Hinj.
  { intros a b. split; [|by intros ->].
    intros [= Heq]. change (pretty a = pretty b) in Heq. by apply (inj pretty) in Heq. }
  destruct (dict_get d1 "id" None) as [s1|], (dict_get d2 "id" None) as [s2|];
    simpl in *; rewrite ?Hid1, ?Hid2; simpl; apply Hinj.
Qed.

(** *** What the loop keeps *)

Lemma preserves_forum_monitor_loop (P : world → Prop) script :
  (∀ ev w, is_pacing ev = true → P w → P (log_event ev w)) →
  (∀ n w, P w → P (set_scroll_counter n w)) →
  (∀ el, preserves P (process_thread el)) →
  preserves P (forum_monitor_loop script).
Proof.
  clear_all. intros Hpacing Hcounter Hthread w Hw.
  unfold forum_monitor_loop. cbv [bind modify].
  apply preserves_iterations; auto.
Qed.

(** X8: the loop never lets the list grow beyond the bound: a list of at
    most [k] entries, [k] at least the bound, has at most [k] entries after
    any run of the loop. *)
Theorem seen_list_stays_bounded (k : nat) script w :
  (Z.to_nat max_seen ≤ k)%nat →
  (length (seen_threads w) ≤ k)%nat →
  (length (seen_threads (forum_monitor_loop script w).2) ≤ k)%nat.
Proof.
  clear_unused. intros Hk.
  apply (preserves_forum_monitor_loop (λ w, (length (seen_threads w) ≤ k)%nat)); [done..|].
  intros el w0 Hw0.
  destruct (process_thread_step el w0) as (w' & Hrun & _ & Hstep).
  rewrite Hrun. simpl.
  destruct Hstep
    as [(-> & _)|[(_ & -> & _)|(i & p & _ & _ & _ & -> & _)]]; simpl.
  - done.
  - rewrite slice_from_neg, last_entries_length by done. lia.
  - rewrite slice_from_neg, last_entries_length by done. lia.
Qed.

Lemma filter_drop_sublist {A} (P : A → Prop) `{!∀ x, Decision (P x)} (n : nat) (l : list A) :
  filter P (drop n l) `sublist_of` filter P l.
Proof.
  clear_all. rewrite <- (take_drop n l) at 2. rewrite filter_app.
  apply sublist_inserts_l. done.
Qed.

(** X9: the loop never puts an identifier other than the excluded one into
    the list twice: when the list holds each of them at most once, it still
    does after any run of the loop, whatever the bound. *)
Theorem no_identifier_recorded_twice script w :
  NoDup (filter (λ i, i ≠ "1303609863024148602") (seen_threads w)) →
  NoDup (filter (λ i, i ≠ "1303609863024148602")
           (seen_threads (forum_monitor_loop script w).2)).
Proof.
  clear_all.
  apply (preserves_forum_monitor_loop
           (λ w, NoDup (filter (λ i, i ≠ "1303609863024148602") (seen_threads w))));
    [done..|].
  intros el w0 Hw0.
  destruct (process_thread_step el w0) as (w' & Hrun & _ & Hstep).
  rewrite Hrun. simpl.
  destruct Hstep
    as [(-> & _)|[(_ & -> & _)|(i & p & _ & Hnb & Hnew & -> & _)]]; simpl.
  - done.
  - destruct (slice_from_drop (- max_seen) (seen_threads w0 ++ ["1303609863024148602"]))
      as [n ->].
    eapply sublist_NoDup; [|apply filter_drop_sublist].
    rewrite filter_app, filter_cons_False, filter_nil, app_nil_r by (by intros ?). done.
  - destruct (slice_from_drop (- max_seen) (seen_threads w0 ++ [i])) as [n ->].
    eapply sublist_NoDup; [|apply filter_drop_sublist].
    rewrite filter_app, filter_cons_True, filter_nil by done.
    apply NoDup_app. split_and!; [done| |apply NoDup_singleton].
    intros j Hj%list_elem_of_filter Hji%list_elem_of_singleton. subst j.
    by destruct Hj.
Qed.

(** X10: on a disk on which every write succeeds the file keeps step with
    the memory: when the file holds the list that is in memory, it still
    does after any run of the loop. *)
Theorem file_keeps_step_with_memory script w :
  (∀ n, file_write n = WriteOk) →
  file_in_step w →
  file_in_step (forum_monitor_loop script w).2.
Proof.
  clear_all. intros Hdisk.
  apply (preserves_forum_monitor_loop file_in_step); [done..|].
  intros el w0 Hw0. unfold file_in_step in *.
  destruct (process_thread_step el w0) as (w' & Hrun & _ & Hstep).
  rewrite Hrun. simpl.
  destruct Hstep
    as [(-> & _ & -> & _)|[(_ & _ & _ & -> & _)|(i & p & _ & _ & _ & _ & _ & -> & _)]]; simpl; [done|by rewrite Hdisk..].
Qed.

(** X12: in one poll the threads are announced in the order of their cards,
    each card at most once, and one request is sent for each announcement. *)
Theorem announced_in_page_order els w :
  ∃ ids,
    announced (trace (for_each process_thread els w).2) = announced (trace w) ++ ids ∧
    ids `sublist_of` omap candidate_id els ∧
    posts (for_each process_thread els w).2 = (posts w + length ids)%nat.
Proof.
  clear_all. revert w. induction els as [|el els IH]; intros w; simpl.
  { exists []. by rewrite app_nil_r, Nat.add_0_r. }
  unfold bind.
  destruct (process_thread_step el w) as (w1 & -> & _ & Hstep).
  destruct (IH w1) as (ids & Hann & Hsub & Hposts).
  rewrite Hann, Hposts.
  destruct Hstep
    as [(_ & -> & _ & _ & -> & _)|[(_ & _ & -> & _ & _ & ->)|(i & p & -> & _ & _ & _ & -> & _ & _ & ->)]].
  - exists ids. split_and!; [done| |done].
    destruct (candidate_id el); [by apply sublist_cons|done].
  - exists ids. unfold announced at 1. rewrite omap_app. simpl. rewrite app_nil_r.
    split_and!; [done| |done].
    destruct (candidate_id el); [by apply sublist_cons|done].
  - exists (i :: ids). unfold announced at 1. rewrite omap_app. simpl.
    rewrite <- (assoc_L (++)). simpl. split_and!; [done| |lia].
    by apply sublist_skip.
Qed.

(** *** How the loop ends *)

Lemma iteration_flow page w :
  (iteration page w).1 = Ok Next
  ∨ ((iteration page w).1 = Ok Return ∧ page_gone page = true).
Proof.
  clear_all.
  unfold iteration, page_gone, page_mouse_wheel, page_reload, py_mod, sleep.
  cbv [try_except bind lift ret raise modify gets].
  destruct (wait_for_selector page) as [[]|[]]; simpl; auto.
  destruct (query_selector_all page) as [els|[]]; simpl; auto.
  pose proof (for_each_process_thread_returns els w) as Hret.
  destruct (for_each process_thread els w) as [[[]|e] w1]; simpl in *; [|done].
  destruct (randint_scroll page =? 0); simpl; auto.
  destruct (_ `mod` randint_scroll page =? 0); simpl.
  - destruct (mouse_wheel page) as [[]|[]]; simpl; auto.
    destruct (_ `mod` 40 =? 0); simpl; auto.
    destruct (reload page) as [[]|[]]; simpl; rewrite ?orb_true_r; auto.
  - destruct (_ `mod` 40 =? 0); simpl; auto.
    destruct (reload page) as [[]|[]]; simpl; rewrite ?orb_true_r; auto.
Qed.

(** X13: the loop never raises, and it returns only when a call of the page
    (waiting for the cards, listing them, scrolling or reloading) has raised
    a [PlaywrightError]; whatever the cards, the endpoint and the disk do,
    it is otherwise still running. *)
Theorem loop_ends_only_when_page_gone script w :
  (forum_monitor_loop script w).1 = Ok Running
  ∨ ((forum_monitor_loop script w).1 = Ok Returned
     ∧ Exists (λ page, page_gone page = true) script).
Proof.
  clear_all. unfold forum_monitor_loop. cbv [bind modify].
  generalize (set_scroll_counter 0 w). clear w.
  induction script as [|page script IH]; intros w; simpl; [by left|].
  unfold bind.
  destruct (iteration_flow page w) as [Hnext|[Hret Hgone]];
    destruct (iteration page w) as [[[]|e] w1]; simpl in *; try done.
  - destruct (IH w1) as [?|[? ?]]; [by left|right]. split; [done|by apply Exists_cons_tl].
  - right. split; [done|by apply Exists_cons_hd].
Qed.

(** *** The list across a restart *)

(** X14: what a record writes, the next start reads: after a record whose
    write succeeds, [load_seen_threads] returns the list that is in memory,
    when [json.loads] reads back what [json.dumps] wrote for it. *)
Theorem recorded_list_read_back thread_id w :
  file_write (writes w) = WriteOk →
  json_loads (json_dumps (JArr (JStr <$> slice_from (- max_seen)
                                           (seen_threads w ++ [thread_id]))))
  = Ok (JArr (JStr <$> slice_from (- max_seen) (seen_threads w ++ [thread_id]))) →
  ∃ w', record thread_id w = (Ok tt, w') ∧
    load_seen_threads w' = (Ok (JArr (JStr <$> seen_threads w')), w').
Proof.
  clear_all. intros Hdisk Hjson.
  destruct (record_spec thread_id w) as (w' & Hrun & Hs & _ & Hf & _).
  exists w'. split; [done|].
  unfold load_seen_threads. cbv [bind gets try_except ret lift].
  rewrite Hf, Hdisk, Hs. simpl. cbv [lift]. by rewrite Hjson.
Qed.

(** X15: when a write raises after the file was opened, the record still
    returns and the list in memory is as recorded, but the file holds what
    had been written until then: the next start loads what that content
    parses to, the empty list when it does not parse, whatever the list in
    memory was. *)
Theorem torn_write_loaded_as_left thread_id w e partial :
  file_write (writes w) = DumpRaises e partial →
  ∃ w', record thread_id w = (Ok tt, w') ∧
    seen_threads w' = slice_from (- max_seen) (seen_threads w ++ [thread_id]) ∧
    threads_file w' = File (Ok partial) ∧
    load_seen_threads w'
    = (Ok match json_loads partial with
          | Ok stored => stored
          | Raise _ => JArr []
          end, w').
Proof.
  clear_all. intros Hdisk.
  destruct (record_spec thread_id w) as (w' & Hrun & Hs & _ & Hf & _).
  rewrite Hdisk in Hf. simpl in Hf.
  exists w'. split_and!; [done..|].
  unfold load_seen_threads. cbv [bind gets try_except ret lift].
  rewrite Hf. simpl. cbv [lift]. by destruct (json_loads partial).
Qed.

(** X16: a bound that is not positive bounds nothing: [l[-0:]] is the whole
    list, so with a bound of 0 the list is never cut; with a bound of [-k]
    every save drops the [k] oldest entries, however short the list. *)
Theorem nonpositive_bound_does_not_bound thread_id w :
  max_seen ≤ 0 →
  ∃ w', record thread_id w = (Ok tt, w') ∧
    seen_threads w' = drop (Z.to_nat (- max_seen)) (seen_threads w ++ [thread_id]) ∧
    (max_seen = 0 → seen_threads w' = seen_threads w ++ [thread_id]).
Proof.
  clear_all. intros Hbound.
  destruct (record_spec thread_id w) as (w' & Hrun & Hs & _).
  exists w'. split; [done|].
  assert (seen_threads w'
          = drop (Z.to_nat (- max_seen)) (seen_threads w ++ [thread_id])) as ->.
  { rewrite Hs. unfold slice_from.
    destruct (Z.ltb_spec (- max_seen) 0) as [?|_]; [lia|].
    destruct (Z.min_spec (- max_seen) (Z.of_nat (length (seen_threads w ++ [thread_id]))))
      as [[_ ->]|[? ->]]; [done|].
    rewrite Nat2Z.id, !drop_ge; [done|lia..]. }
  split; [done|]. by intros ->.
Qed.

(** *** The requests *)

Lemma post_new_thread_webhook_payload thread_data title content w :
  dict_get thread_data "title" (Some "Untitled") = title →
  dict_get thread_data "content" (Some "") = Some content →
  ∃ w', post_new_thread_webhook thread_data w = (Ok tt, w') ∧
    trace w'
    = trace w ++
      [EvPost WEBHOOK_URL
         (JObj [("username", JStr USERNAME);
                ("content",
                 JStr (if falsy ROLE_PING_ID then ""
                       else "<@&" +:+ py_str ROLE_PING_ID +:+ ">"));
                ("embeds",
                 JArr [JObj [("title", json_of_pyval title);
                             ("description",
                              JStr (if bool_decide (strip content = "")
                                    then "No preview available." else strip content));
                             ("timestamp", JNull);
                             ("footer", JObj [("text", JStr FOOTER_TEXT);
                                              ("icon_url", JStr FOOTER_ICON)])]])])
         (requests_post (posts w))] ∧
    posts w' = S (posts w) ∧
    seen_threads w' = seen_threads w ∧ threads_file w' = threads_file w ∧
    writes w' = writes w ∧ scroll_counter w' = scroll_counter w.
Proof.
  clear_all. intros Htitle Hcontent. unfold post_new_thread_webhook.
  rewrite Htitle, Hcontent. cbv [bind gets modify py_strip ret].
  match goal with
  | |- context [send_payload ?p ?w1] =>
      destruct (send_payload_spec p w1) as (w' & -> & Htr & Hp & Hs & Hf & Hw & _ & Hc)
  end.
  exists w'. split; [reflexivity|]. simpl in *. done.
Qed.

(** X17: for a card that is new, the request carries the title of the card
    without the whitespace around it (or "Untitled Thread"), the preview
    likewise, "No preview available." when the preview is missing or blank,
    the mention of the role when one is configured, and no timestamp. *)
Theorem new_card_payload el i w :
  candidate_id el = Some i → i ≠ "1303609863024148602" →
  i ∉ seen_threads w →
  let title := strip (default "Untitled Thread" (card_text el SelTitle)) in
  let preview := default "" (card_text el SelMessage) in
  ∃ w', process_thread el w = (Ok tt, w') ∧
    trace w'
    = trace w ++
      [EvNewThread i;
       EvPost WEBHOOK_URL
         (JObj [("username", JStr USERNAME);
                ("content",
                 JStr (if falsy ROLE_PING_ID then ""
                       else "<@&" +:+ py_str ROLE_PING_ID +:+ ">"));
                ("embeds",
                 JArr [JObj [("title", JStr title);
                             ("description",
                              JStr (if all_space preview
                                    then "No preview available." else strip preview));
                             ("timestamp", JNull);
                             ("footer", JObj [("text", JStr FOOTER_TEXT);
                                              ("icon_url", JStr FOOTER_ICON)])]])])
         (requests_post (posts w));
       EvDump (seen_threads w') (file_write (writes w))].
Proof.
  clear_all. intros Hid Hnb Hnew title preview.
  pose proof (candidate_id_not_raises el i Hid) as Hnr.
  pose proof (candidate_id_spec el) as Hex. rewrite Hid in Hex.
  destruct (Hex w) as (d & w1 & Hd & Hw1 & Hne & Htid & _).
  assert (dict_get d "title" (Some "Untitled") = Some title
          ∧ dict_get d "content" (Some "") = Some (strip preview)) as [Htitle Hcontent].
  { rewrite (extract_thread_data_fields el w Hnr) in Hd. injection Hd as <- _.
    split; apply thread_data_dict_get. }
  unfold process_thread, bind at 1. rewrite Hd.
  rewrite bool_decide_eq_false_2 by done.
  unfold bind at 1. rewrite Htid.
  rewrite bool_decide_eq_false_2 by done.
  unfold bind at 1, gets.
  rewrite bool_decide_eq_true_2 by (destruct Hw1 as [->| ->]; simpl; auto).
  unfold bind at 1, modify.
  destruct (post_new_thread_webhook_payload d _ _ (log_event (EvNewThread i) w1)
              Htitle Hcontent)
    as (w2 & Hpost & Ht2 & Hp2 & Hs2 & Hf2 & Hw2 & Hc2).
  unfold bind at 1. rewrite Hpost.
  destruct (record_spec i w2) as (w' & Hrec & Hs & Ht & Hf & Hw & Hp & _ & Hc).
  unfold record in Hrec. rewrite Hrec.
  exists w'. split; [done|].
  rewrite Ht, Ht2, Hw2, strip_idemp.
  replace (bool_decide (strip preview = "")) with (all_space preview).
  2: { destruct (all_space preview) eqn:Hblank.
       - by rewrite bool_decide_eq_true_2 by (by apply strip_blank).
       - rewrite bool_decide_eq_false_2; [done|].
         intros Hs0%strip_blank. congruence. }
  destruct Hw1 as [->| ->]; simpl; by rewrite <- !(assoc_L (++)).
Qed.

(** X18: [post_new_thread_webhook] on data without title and without
    content sends the title "Untitled" and the description
    "No preview available.". *)
Theorem post_defaults_for_missing_keys (thread_data : gmap string pyval) w :
  thread_data !! "title" = None → thread_data !! "content" = None →
  ∃ w', post_new_thread_webhook thread_data w = (Ok tt, w') ∧
    trace w'
    = trace w ++
      [EvPost WEBHOOK_URL
         (JObj [("username", JStr USERNAME);
                ("content",
                 JStr (if falsy ROLE_PING_ID then ""
                       else "<@&" +:+ py_str ROLE_PING_ID +:+ ">"));
                ("embeds",
                 JArr [JObj [("title", JStr "Untitled");
                             ("description", JStr "No preview available.");
                             ("timestamp", JNull);
                             ("footer", JObj [("text", JStr FOOTER_TEXT);
                                              ("icon_url", JStr FOOTER_ICON)])]])])
         (requests_post (posts w))].
Proof.
  clear_all. intros Htitle Hcontent.
  destruct (post_new_thread_webhook_payload thread_data (Some "Untitled") "" w)
    as (w' & Hrun & Htrace & _).
  - unfold dict_get. by rewrite Htitle.
  - unfold dict_get. by rewrite Hcontent.
  - by exists w'.
Qed.

(** X19: [post_new_thread_webhook] on data whose content is [None] raises
    [AttributeError] before any request is made. *)
Theorem post_raises_on_none_content (thread_data : gmap string pyval) w :
  thread_data !! "content" = Some None →
  (post_new_thread_webhook thread_data w).1 = Raise (OtherException "AttributeError") ∧
  trace (post_new_thread_webhook thread_data w).2 = trace w ∧
  posts (post_new_thread_webhook thread_data w).2 = posts w.
Proof.
  clear_all. intros Hcontent. unfold post_new_thread_webhook, dict_get.
  rewrite Hcontent. simpl. cbv [bind gets modify py_strip raise]. done.
Qed.

(** *** The pace of the loop *)

Lemma reloads_app tr1 tr2 : reloads (tr1 ++ tr2) = (reloads tr1 + reloads tr2)%nat.
Proof. clear_all. unfold reloads. by rewrite filter_app, length_app. Qed.

(** The cards of a poll neither count as polls nor reload the page. *)
Lemma for_each_process_thread_pacing els w :
  scroll_counter (for_each process_thread els w).2 = scroll_counter w ∧
  reloads (trace (for_each process_thread els w).2) = reloads (trace w).
Proof.
  clear_all.
  apply (preserves_for_each
           (λ w', scroll_counter w' = scroll_counter w
                  ∧ reloads (trace w') = reloads (trace w))); [|done].
  intros el w0 [<- <-].
  destruct (process_thread_step el w0) as (w' & Hrun & Hc & Hstep).
  rewrite Hrun. simpl. split; [done|].
  destruct Hstep
    as [(_ & -> & _)|[(_ & _ & -> & _)|(i & p & _ & _ & _ & _ & -> & _)]];
    rewrite ?reloads_app; simpl; [done|unfold reloads; simpl; lia..].
Qed.

Lemma fortieth_poll (c : Z) :
  0 ≤ c → (if (c + 1) `mod` 40 =? 0 then 1 else 0) = (c + 1) `div` 40 - c `div` 40.
Proof.
  clear_all. intros Hc. destruct (Z.eqb_spec ((c + 1) `mod` 40) 0);
    Z.to_euclidean_division_equations; lia.
Qed.

(** A poll in which no call of the page raises: the loop goes on, the poll
    is counted, and the page is reloaded when the count is a multiple of
    forty. *)
Lemma iteration_calm page w :
  page_raises page = false → randint_scroll page ≠ 0 →
  ∃ w', iteration page w = (Ok Next, w') ∧
    scroll_counter w' = scroll_counter w + 1 ∧
    reloads (trace w')
    = (reloads (trace w)
       + (if ((scroll_counter w + 1) `mod` 40 =? 0)%Z then 1 else 0))%nat.
Proof.
  clear_all. unfold page_raises. intros Hcalm Hrand.
  destruct (wait_for_selector page) as [[]|] eqn:Hwait; [|done].
  destruct (query_selector_all page) as [els|] eqn:Hq; [|done].
  destruct (mouse_wheel page) as [[]|] eqn:Hwheel; [|by rewrite orb_true_r in Hcalm].
  destruct (reload page) as [[]|] eqn:Hreload; [|by rewrite orb_true_r in Hcalm].
  unfold iteration, page_mouse_wheel, page_reload, py_mod, sleep.
  cbv [try_except bind lift ret raise modify gets].
  rewrite Hwait, Hq, Hwheel, Hreload.
  pose proof (for_each_process_thread_returns els w) as Hret.
  destruct (for_each_process_thread_pacing els w) as [Hc Hr].
  destruct (for_each process_thread els w) as [[[]|e] w1]; simpl in *; [|done].
  rewrite (proj2 (Z.eqb_neq _ _) Hrand), Hc. simpl.
  destruct (_ `mod` randint_scroll page =? 0); simpl; rewrite ?Hc;
    destruct ((scroll_counter w + 1) `mod` 40 =? 0); simpl;
    eexists; (split; [reflexivity|]); simpl; rewrite ?Hc;
    (split; [done|]); rewrite ?reloads_app, Hr; unfold reloads; simpl; lia.
Qed.

Lemma iterations_calm script w :
  0 ≤ scroll_counter w →
  Forall (λ page, page_raises page = false ∧ randint_scroll page ≠ 0) script →
  ∃ w', iterations script w = (Ok Running, w') ∧
    scroll_counter w' = scroll_counter w + Z.of_nat (length script) ∧
    Z.of_nat (reloads (trace w'))
    = Z.of_nat (reloads (trace w))
      + ((scroll_counter w + Z.of_nat (length script)) `div` 40
         - scroll_counter w `div` 40).
Proof.
  clear_all. intros Hc Hcalm. revert w Hc.
  induction Hcalm as [|page script [Hpage Hrand] _ IH]; intros w Hc.
  { exists w. simpl. split_and!; [done|lia|]. rewrite Z.add_0_r. lia. }
  destruct (iteration_calm page w Hpage Hrand) as (w1 & Hrun & Hc1 & Hr1).
  destruct (IH w1) as (w' & Hrun' & Hc' & Hr'); [lia|].
  exists w'. simpl. unfold bind. rewrite Hrun, Hrun'. split; [done|].
  split; [lia|]. rewrite Hr', Hr1, Hc1.
  pose proof (fortieth_poll (scroll_counter w) Hc) as H40.
  replace (scroll_counter w + 1 + Z.of_nat (length script))
    with (scroll_counter w + Z.of_nat (S (length script))) by lia.
  destruct ((scroll_counter w + 1) `mod` 40 =? 0); lia.
Qed.

(** X20: as long as no call of the page raises, the loop reloads the page
    at every fortieth poll and at no other: after [n] polls it has counted
    [n] polls and reloaded the page [n / 40] times. *)
Theorem page_reloaded_every_fortieth_poll script w :
  Forall (λ page, page_raises page = false ∧ randint_scroll page ≠ 0) script →
  ∃ w', forum_monitor_loop script w = (Ok Running, w') ∧
    scroll_counter w' = Z.of_nat (length script) ∧
    Z.of_nat (reloads (trace w'))
    = Z.of_nat (reloads (trace w)) + Z.of_nat (length script) `div` 40.
Proof.
  clear_all. intros Hcalm. unfold forum_monitor_loop. cbv [bind modify].
  destruct (iterations_calm script (set_scroll_counter 0 w)) as (w' & Hrun & Hc & Hr);
    [done..|].
  exists w'. simpl in *. rewrite Z.add_0_l, Zdiv_0_l in Hr.
  split_and!; [done|lia|lia].
Qed.

(** *** The requests of a run *)

Lemma requests_app tr1 tr2 : requests (tr1 ++ tr2) = (requests tr1 + requests tr2)%nat.
Proof. clear_all. unfold requests. by rewrite filter_app, length_app. Qed.

Lemma announced_requests_app (tr1 tr2 : list event) :
  head (is_post <$> tr2) ≠ Some true →
  announced_requests (tr1 ++ tr2) = (announced_requests tr1 + announced_requests tr2)%nat.
Proof.
  clear_all.
  intros Hhead. induction tr1 as [|ev tr1 IH]; [done|].
  simpl. rewrite IH. destruct ev; try done.
  destruct tr1 as [|ev' tr1]; simpl.
  - destruct tr2 as [|[] tr2]; simpl in *; done.
  - destruct ev'; done.
Qed.

Lemma announced_app tr1 tr2 : announced (tr1 ++ tr2) = announced tr1 ++ announced tr2.
Proof. clear_all. unfold announced. apply omap_app. Qed.

(** A thread that is not announced is not notified. *)
Lemma notifications_not_announced i tr : i ∉ announced tr → notifications i tr = 0%nat.
Proof.
  clear_all. induction tr as [|ev tr IH]; [done|].
  intros Hi. destruct ev as [j| | | | |]; simpl in *; try (by apply IH).
  apply not_elem_of_cons in Hi as [Hij Hi].
  destruct tr as [|[] tr]; try (by apply IH).
  rewrite bool_decide_eq_false_2 by done. by apply IH.
Qed.

Lemma well_announced_start w : well_announced (trace w) (posts w) w.
Proof.
  clear_all. exists []. rewrite app_nil_r. split_and!; try done.
  apply not_elem_of_nil.
Qed.

Lemma well_announced_extend t0 p0 w w' more :
  well_announced t0 p0 w →
  trace w' = trace w ++ more →
  posts w' = (posts w + requests more)%nat →
  head (is_post <$> more) ≠ Some true →
  requests more = announced_requests more →
  "1303609863024148602" ∉ announced more →
  well_announced t0 p0 w'.
Proof.
  clear_all.
  intros (sent & Ht & Hh & Hr & Hp & Hb) Ht' Hp' Hh' Hr' Hb'.
  exists (sent ++ more). split_and!.
  - by rewrite Ht', Ht, (assoc_L (++)).
  - by destruct sent.
  - rewrite requests_app, announced_requests_app by done. lia.
  - rewrite Hp', Hp, requests_app. lia.
  - rewrite announced_app. by apply not_elem_of_app.
Qed.

Lemma well_announced_thread t0 p0 el : preserves (well_announced t0 p0) (process_thread el).
Proof.
  clear_all. intros w Hw.
  destruct (process_thread_step el w) as (w' & Hrun & _ & Hstep).
  rewrite Hrun. simpl.
  destruct Hstep
    as [(_ & Ht & _ & _ & Hp & _)|[(_ & _ & Ht & _ & _ & Hp)
       |(i & payload & _ & Hnb & _ & _ & Ht & _ & _ & Hp)]].
  - apply (well_announced_extend t0 p0 w w' []); try done.
    + by rewrite app_nil_r.
    + rewrite Hp. unfold requests. simpl. lia.
    + apply not_elem_of_nil.
  - eapply (well_announced_extend t0 p0 w w'); [done|exact Ht|..]; try done.
    + rewrite Hp. unfold requests. simpl. lia.
    + apply not_elem_of_nil.
  - eapply (well_announced_extend t0 p0 w w'); [done|exact Ht|..]; try done.
    + rewrite Hp. unfold requests. simpl. lia.
    + simpl. apply not_elem_of_cons. split; [done|apply not_elem_of_nil].
Qed.

Lemma well_announced_pacing t0 p0 ev w :
  is_pacing ev = true → well_announced t0 p0 w → well_announced t0 p0 (log_event ev w).
Proof.
  clear_all. intros Hev Hw.
  apply (well_announced_extend t0 p0 w _ [ev]); try done.
  - destruct ev; try done; simpl; unfold requests; simpl; lia.
  - by destruct ev.
  - by destruct ev.
  - destruct ev; try done; apply not_elem_of_nil.
Qed.


Lemma well_announced_iterations t0 p0 script :
  preserves (well_announced t0 p0) (iterations script).
Proof.
  clear_all. apply preserves_iterations.
  - intros ev w. apply well_announced_pacing.
  - by intros n w.
  - apply well_announced_thread.
Qed.

(** A poll, taken up again after a card. *)
Lemma iterations_resume page script pre x post w :
  wait_for_selector page = Ok tt →
  query_selector_all page = Ok (pre ++ x :: post) →
  iterations (page :: script) w
  = iterations (with_thread_elements post page :: script)
      (process_thread x (for_each process_thread pre w).2).2.
Proof.
  clear_all. intros Hwait Hq. simpl. unfold bind at 1 2.
  rewrite (iteration_resume page (pre ++ [x]) post) by (by rewrite <- ?(assoc_L (++))).
  rewrite for_each_app.
  pose proof (for_each_process_thread_returns pre w) as Hret.
  destruct (for_each process_thread pre w) as [[[]|e] w2]; [|done].
  simpl. unfold bind at 1.
  pose proof (process_thread_returns x w2) as Hretx.
  by destruct (process_thread x w2) as [[[]|e] w3].
Qed.

(** X11: no run of the loop makes a request for the excluded thread: every
    request of the run directly follows the announcement of a thread as
    new, the excluded thread is never announced, and [posts] counts no
    other request. *)
Theorem excluded_thread_never_notified script w :
  ∃ sent,
    trace (forum_monitor_loop script w).2 = trace w ++ sent ∧
    posts (forum_monitor_loop script w).2 = (posts w + requests sent)%nat ∧
    requests sent = announced_requests sent ∧
    ("1303609863024148602" ∉ announced sent) ∧
    notifications "1303609863024148602" (trace (forum_monitor_loop script w).2)
    = notifications "1303609863024148602" (trace w).
Proof.
  clear_all.
  assert (well_announced (trace w) (posts w) (forum_monitor_loop script w).2)
    as (sent & Ht & Hh & Hr & Hp & Hb).
  { unfold forum_monitor_loop. cbv [bind modify].
    apply well_announced_iterations. apply (well_announced_start (set_scroll_counter 0 w)). }
  exists sent. split_and!; try done.
  rewrite Ht, notifications_app, (notifications_not_announced _ sent) by done. lia.
Qed.

(** C1, as the code has it: when the loop comes to a card of a thread [i]
    that is not excluded and not in the list, it announces [i], makes one
    request and records [i]; as long as at most [max_seen] writes of the
    list, this one included, have been made since, no other notification
    for [i] follows, every request made since follows the announcement of
    another thread, and [i] is still in the list: later cards of [i], in
    this poll or in later ones, are passed over.  The card may be any
    sighting at which [i] is not in the list, the first or one that comes
    after [i] has left the list. *)
Theorem notified_once_until_evicted script1 page script2 pre x post i w w1 :
  forum_monitor_loop script1 w = (Ok Running, w1) →
  wait_for_selector page = Ok tt →
  query_selector_all page = Ok (pre ++ x :: post) →
  candidate_id x = Some i → i ≠ "1303609863024148602" →
  i ∉ seen_threads (for_each process_thread pre w1).2 →
  (writes (forum_monitor_loop (script1 ++ page :: script2) w).2
   ≤ writes (for_each process_thread pre w1).2 + Z.to_nat max_seen)%nat →
  ∃ payload later,
    trace (forum_monitor_loop (script1 ++ page :: script2) w).2
    = trace (for_each process_thread pre w1).2
      ++ EvNewThread i
         :: EvPost WEBHOOK_URL payload
              (requests_post (posts (for_each process_thread pre w1).2))
         :: later ∧
    notifications i later = 0%nat ∧
    requests later = announced_requests later ∧
    posts (forum_monitor_loop (script1 ++ page :: script2) w).2
    = S (posts (for_each process_thread pre w1).2 + requests later) ∧
    notifications i (trace (forum_monitor_loop (script1 ++ page :: script2) w).2)
    = S (notifications i (trace (for_each process_thread pre w1).2)) ∧
    i ∈ seen_threads (forum_monitor_loop (script1 ++ page :: script2) w).2.
Proof.
  clear_unused.
  intros Hrun Hwait Hq Hid Hnb Hnew.
  rewrite forum_monitor_loop_app, Hrun.
  rewrite (iterations_resume page script2 pre x post w1 Hwait Hq).
  set (wx := (for_each process_thread pre w1).2) in *.
  destruct (process_thread_new x i wx Hid Hnb Hnew)
    as (payload & wx' & Hx & Hs & Ht & _ & Hw & Hp & _).
  rewrite Hx. cbn [snd].
  set (wf := (iterations (with_thread_elements post page :: script2) wx').2).
  intros Hwrites.
  assert (in_window i (writes wx') (S (notifications i (trace wx))) wx') as Hwin.
  { split; [done|]. intros _. split.
    - rewrite Ht, notifications_new by done.
      by rewrite bool_decide_eq_true_2.
    - rewrite Hs, slice_from_neg by done.
      destruct (last_entries_keeps (Z.to_nat max_seen) (seen_threads wx) [i])
        as [older ->]; [simpl; lia|].
      exists older, []. split; [done|]. simpl. lia. }
  apply (in_window_iterations i _ _ (with_thread_elements post page :: script2) Hnb)
    in Hwin as [_ Hwin].
  destruct Hwin as (Hcount & older & newer & Hseen & _); [fold wf; lia|].
  fold wf in Hcount, Hseen.
  destruct (well_announced_iterations (trace wx') (posts wx')
              (with_thread_elements post page :: script2) wx' (well_announced_start wx'))
    as (sent & Htf & Hh & Hr & Hpf & _).
  fold wf in Htf, Hpf.
  exists payload, (EvDump (seen_threads wx') (file_write (writes wx)) :: sent).
  assert (notifications i sent = 0%nat) as Hnone.
  { rewrite Htf, Ht, notifications_app, notifications_new in Hcount by done.
    rewrite bool_decide_eq_true_2 in Hcount by done. lia. }
  split_and!.
  - rewrite Htf, Ht, <- (assoc_L (++)). done.
  - done.
  - done.
  - rewrite Hpf, Hp. change (requests (_ :: sent)) with (requests sent). lia.
  - done.
  - rewrite Hseen. set_solver.
Qed.


End Monitor.

(** ** The properties on concrete runs *)

(** On the concrete cards every call answers. *)
Ltac answers :=
  let H := fresh "H" in
  let H' := fresh "H" in
  intros [sel e H|sel el e _ H H'|el e H H'|el e H H'];
  [ destruct sel; discriminate H
  | destruct sel; simpl in H; try discriminate H; injection H as <-; discriminate H'
  | simpl in H; try discriminate H; injection H as <-; discriminate H'
  | simpl in H; try discriminate H; injection H as <-; discriminate H' ].

(** Three cards on the page, polled four times: the third thread is
    announced at the first poll that shows it, one request is made for it,
    and it is in the list at the end. *)
Lemma notified_once_until_evicted_witness :
  let run := forum_monitor_loop "https://hook" None MAX_SEEN_THREADS sample_hash
               sample_json_dumps status_204 write_ok sample_clock in
  let step := process_thread "https://hook" None MAX_SEEN_THREADS sample_hash
                sample_json_dumps status_204 write_ok sample_clock in
  let wx := (for_each step (cards 2) (run [quiet_page (cards 2)] empty_world).2).2 in
  let wf := (run ([quiet_page (cards 2)]
                  ++ quiet_page (cards 3) :: [quiet_page (cards 3); quiet_page (cards 3)])
               empty_world).2 in
  0 < MAX_SEEN_THREADS ∧
  candidate_id sample_hash sample_clock (card "t2" "Thread 2") = Some "t2" ∧
  ("t2" ∉ seen_threads wx) ∧
  ∃ payload later,
    trace wf = trace wx ++ EvNewThread "t2" :: EvPost "https://hook" payload (Ok 204) :: later ∧
    notifications "t2" later = 0%nat ∧
    requests later = announced_requests later ∧
    posts wf = S (posts wx + requests later) ∧
    notifications "t2" (trace wf) = S (notifications "t2" (trace wx)) ∧
    "t2" ∈ seen_threads wf.
Proof.
  intros run step wx wf.
  assert ("t2" ∉ seen_threads wx) as Hnew.
  { apply (bool_decide_eq_false_1 (_ ∈ _)). vm_compute. reflexivity. }
  split; [reflexivity|]. split; [vm_compute; reflexivity|]. split; [exact Hnew|].
  refine (notified_once_until_evicted "https://hook" None MAX_SEEN_THREADS sample_hash
            sample_json_dumps status_204 write_ok sample_clock _
            [quiet_page (cards 2)] (quiet_page (cards 3))
            [quiet_page (cards 3); quiet_page (cards 3)]
            (cards 2) (card "t2" "Thread 2") [] "t2" empty_world
            (run [quiet_page (cards 2)] empty_world).2
            _ _ _ _ _ Hnew _).
  - reflexivity.
  - vm_compute; reflexivity.
  - reflexivity.
  - vm_compute; reflexivity.
  - vm_compute; reflexivity.
  - discriminate.
  - apply Nat.leb_le. vm_compute. reflexivity.
Defined.

(** Twenty-one cards on the page, polled twice, with the list bounded at
    twenty: when the second poll comes to the first thread, the twenty
    threads recorded after it have pushed it out of the list, and it is
    notified again; so is every thread, at every poll. *)
Lemma notified_again_after_eviction :
  candidate_id sample_hash sample_clock <$> head (cards 21) = Some (Some "t0") ∧
  notifications "t0"
    (trace (forum_monitor_loop "https://hook" None MAX_SEEN_THREADS sample_hash
              sample_json_dumps status_204 write_ok sample_clock
              [quiet_page (cards 21); quiet_page (cards 21)]
              empty_world).2)
  = 2%nat ∧
  posts (forum_monitor_loop "https://hook" None MAX_SEEN_THREADS sample_hash
           sample_json_dumps status_204 write_ok sample_clock
           [quiet_page (cards 21); quiet_page (cards 21)]
           empty_world).2
  = 42%nat.
Proof. split_and!; vm_compute; reflexivity. Qed.

(** The scenario of the specification: with a bound of two, recording "1",
    "2" and "3" leaves "2" and "3", in memory and in the file. *)
Lemma persisted_bounded_fifo_witness :
  0 < 2 ∧
  ∃ w', for_each (record 2 sample_json_dumps write_ok) ["1"; "2"; "3"] empty_world
        = (Ok tt, w') ∧
    seen_threads w' = ["2"; "3"] ∧
    threads_file w' = File (Ok (sample_json_dumps (JArr [JStr "2"; JStr "3"]))).
Proof.
  split; [reflexivity|].
  destruct (persisted_bounded_fifo 2 sample_json_dumps write_ok eq_refl
              ["1"; "2"; "3"] empty_world) as (w' & Hrun & _ & _ & Hfile).
  exists w'. split; [exact Hrun|]. split.
  - vm_compute in Hrun. by injection Hrun as <-.
  - exact (Hfile ["1"; "2"] "3" eq_refl eq_refl).
Defined.

(** The announcements thread, already in the list: recorded once more, and
    no request. *)
Lemma excluded_marked_seen_not_notified_witness :
  0 < MAX_SEEN_THREADS ∧
  candidate_id sample_hash sample_clock (card "1303609863024148602" "Announcements")
  = Some "1303609863024148602" ∧
  ∃ w', process_thread "https://hook" None MAX_SEEN_THREADS sample_hash
          sample_json_dumps status_204 write_ok sample_clock
          (card "1303609863024148602" "Announcements")
          (set_seen_threads ["1303609863024148602"] empty_world)
        = (Ok tt, w') ∧
    seen_threads w' = ["1303609863024148602"; "1303609863024148602"] ∧
    posts w' = 0%nat.
Proof.
  split; [reflexivity|]. split; [vm_compute; reflexivity|].
  destruct (excluded_marked_seen_not_notified "https://hook" None MAX_SEEN_THREADS
              sample_hash sample_json_dumps status_204 write_ok sample_clock eq_refl
              (card "1303609863024148602" "Announcements")
              (set_seen_threads ["1303609863024148602"] empty_world))
    as (w' & Hrun & _ & Hseen & Hposts & _); [vm_compute; reflexivity|].
  exists w'. split; [exact Hrun|]. split; [exact Hseen|exact Hposts].
Defined.

(** The thread cards never show up: the loop is over before the second poll. *)
Lemma timeout_ends_monitor_loop_witness :
  wait_for_selector timed_out_page = Raise (PlaywrightError TimeoutError) ∧
  forum_monitor_loop "https://hook" None MAX_SEEN_THREADS sample_hash
    sample_json_dumps status_204 write_ok sample_clock
    [timed_out_page; quiet_page (cards 3)] empty_world
  = (Ok Returned, empty_world).
Proof.
  split; [reflexivity|].
  exact (timeout_ends_monitor_loop "https://hook" None MAX_SEEN_THREADS sample_hash
           sample_json_dumps status_204 write_ok sample_clock
           timed_out_page [quiet_page (cards 3)] empty_world eq_refl).
Defined.

(** A card in which nothing is found gives data all the same. *)
Lemma missing_fields_defaulted_witness :
  ¬ extractor_raises bare_card ∧
  ∃ thread_data w',
    extract_thread_data sample_clock bare_card empty_world = (Ok (Some thread_data), w') ∧
    dict_get thread_data "title" (Some "Untitled") = Some "Untitled Thread" ∧
    dict_get thread_data "author" None = Some "Unknown" ∧
    dict_get thread_data "content" (Some "") = Some "".
Proof.
  assert (¬ extractor_raises bare_card) as Hnr.
  { intros [sel e H|sel el e _ H _|el e H _|el e H _]; discriminate H. }
  split; [exact Hnr|].
  destruct (missing_fields_defaulted sample_clock bare_card empty_world Hnr)
    as (thread_data & w' & Hex & Htitle & Hauthor & Hcontent).
  exists thread_data, w'. split; [exact Hex|].
  split; [exact (Htitle eq_refl)|]. split; [exact (Hauthor eq_refl)|exact (Hcontent eq_refl)].
Defined.

(** The title of a card without title is not "Untitled". *)
Lemma untitled_thread_is_the_title_default :
  query_selector bare_card SelTitle = Ok None ∧
  ∃ thread_data w',
    extract_thread_data sample_clock bare_card empty_world = (Ok (Some thread_data), w') ∧
    dict_get thread_data "title" (Some "Untitled") = Some "Untitled Thread" ∧
    dict_get thread_data "title" (Some "Untitled") ≠ Some "Untitled".
Proof.
  split; [reflexivity|].
  exists (thread_data_dict None "Untitled Thread" "Unknown" "" ""
            (Some (sample_clock 0 +:+ "Z"))), (tick_clock empty_world).
  split; [reflexivity|].
  destruct (thread_data_dict_get None "Untitled Thread" "Unknown" "" ""
              (Some (sample_clock 0 +:+ "Z")) (Some "Untitled")) as (_ & -> & _).
  split; [reflexivity|discriminate].
Qed.


(** Two records without identifier, with the same url and title and nothing
    else in common. *)
Lemma fallback_id_stable_witness :
  let d1 := thread_data_dict None "A" "Unknown" "" "" (Some "2025-01-01T00:00:00Z") in
  let d2 := thread_data_dict (Some "") "A" "arle" "preview" "" (Some "2025-06-01T12:00:00Z") in
  falsy (dict_get d1 "id" None) = true ∧
  falsy (dict_get d2 "id" None) = true ∧
  thread_id_of sample_hash d1 empty_world = (Ok "fallback:-6", empty_world) ∧
  thread_id_of sample_hash d2 empty_world = (Ok "fallback:-6", empty_world).
Proof.
  intros d1 d2. split; [reflexivity|]. split; [reflexivity|].
  exact (fallback_id_stable sample_hash d1 d2 "" "A" empty_world empty_world
           eq_refl eq_refl eq_refl eq_refl eq_refl eq_refl).
Defined.


(** A full list and a disk that cannot be written: the list in memory is
    truncated, the file is as it was. *)
Lemma record_truncates_in_memory_witness :
  0 < 2 ∧
  ∃ w', record 2 sample_json_dumps read_only "3" (set_seen_threads ["1"; "2"] empty_world)
        = (Ok tt, w') ∧
    seen_threads w' = ["2"; "3"] ∧
    threads_file w' = NoFile.
Proof.
  split; [reflexivity|].
  destruct (record_truncates_in_memory 2 sample_json_dumps read_only eq_refl "3"
              (set_seen_threads ["1"; "2"] empty_world))
    as (w' & Hrun & Hseen & _ & _ & _ & Hfile).
  exists w'. split; [exact Hrun|]. split; [exact Hseen|].
  exact (Hfile (OtherException "PermissionError") eq_refl).
Defined.

(** The first scenario of the specification: an empty list and the same
    thread twice in one poll give one notification, and the file holds the
    identifier once. *)
Example same_thread_twice_in_one_poll :
  let w := (forum_monitor_loop "https://hook" None MAX_SEEN_THREADS sample_hash
              sample_json_dumps status_204 write_ok sample_clock
              [quiet_page [card "5" "A"; card "5" "A"]] empty_world).2 in
  notifications "5" (trace w) = 1%nat ∧
  posts w = 1%nat ∧
  seen_threads w = ["5"] ∧
  threads_file w = File (Ok (sample_json_dumps (JArr [JStr "5"]))).
Proof. vm_compute. done. Qed.

(** The announcements thread on the page at every poll takes one entry of
    the list per poll: after twenty polls it has pushed out the thread next
    to it, which is notified again. *)
Example excluded_thread_fills_the_list :
  let page := quiet_page [card "5" "A"; card "1303609863024148602" "Announcements"] in
  let w := (forum_monitor_loop "https://hook" None MAX_SEEN_THREADS sample_hash
              sample_json_dumps status_204 write_ok sample_clock
              (replicate 21 page) empty_world).2 in
  notifications "5" (trace w) = 2%nat ∧
  notifications "1303609863024148602" (trace w) = 0%nat.
Proof. vm_compute. done. Qed.

(** ** The further properties on concrete runs *)

(** A title and a preview with blanks around them. *)
Lemma extracted_texts_are_stripped_witness :
  ¬ extractor_raises (preview_card "  A thread " " hello  ") ∧
  ∃ thread_data w',
    extract_thread_data sample_clock (preview_card "  A thread " " hello  ") empty_world
    = (Ok (Some thread_data), w') ∧
    thread_data !! "title" = Some (Some "A thread") ∧
    thread_data !! "author" = Some (Some "Unknown") ∧
    thread_data !! "content" = Some (Some "hello").
Proof.
  assert (¬ extractor_raises (preview_card "  A thread " " hello  ")) as Hnr by answers.
  split; [exact Hnr|].
  destruct (extracted_texts_are_stripped sample_clock _ empty_world Hnr)
    as (thread_data & w' & title & author & content & Hex & Ht & Ha & Hc & -> & -> & -> & _).
  exists thread_data, w'. split; [exact Hex|]. split; [exact Ht|]. split; [exact Ha|exact Hc].
Defined.

(** The url of thread 42. *)
Lemma extracted_url_follows_id_witness :
  ¬ extractor_raises (card "42" "A") ∧
  ∃ thread_data w',
    extract_thread_data sample_clock (card "42" "A") empty_world
    = (Ok (Some thread_data), w') ∧
    thread_data !! "id" = Some (Some "42") ∧
    thread_data !! "url"
    = Some (Some "https://discord.com/channels/1000384021542469632/1303601992169426995/threads/42").
Proof.
  assert (¬ extractor_raises (card "42" "A")) as Hnr by answers.
  split; [exact Hnr|].
  destruct (extracted_url_follows_id sample_clock _ empty_world Hnr)
    as (thread_data & w' & thread_id & url & Hex & Hid & Hurl & -> & _ & Hfound & _).
  exists thread_data, w'. split; [exact Hex|]. split; [exact Hid|].
  rewrite Hurl, (Hfound _ eq_refl). reflexivity.
Defined.

(** A card without time is stamped by the clock. *)
Lemma extracted_timestamp_never_empty_witness :
  ¬ extractor_raises (card "42" "A") ∧
  ∃ thread_data w',
    extract_thread_data sample_clock (card "42" "A") empty_world
    = (Ok (Some thread_data), w') ∧
    thread_data !! "timestamp" = Some (Some "2025-01-01T00:00:00Z") ∧
    clock w' = 1%nat.
Proof.
  assert (¬ extractor_raises (card "42" "A")) as Hnr by answers.
  split; [exact Hnr|].
  destruct (extracted_timestamp_never_empty sample_clock _ empty_world Hnr)
    as (thread_data & w' & timestamp & Hex & Hts & _ & _ & Hclock).
  destruct (Hclock eq_refl) as [-> ->].
  exists thread_data, (tick_clock empty_world). split; [exact Hex|]. split; [exact Hts|].
  reflexivity.
Defined.

(** Thread 42 under a new name is thread 42. *)
Lemma native_id_identifies_thread_witness :
  ¬ extractor_raises (card "42" "A new name") ∧
  card_attribute (card "42" "A new name") SelContainer "data-item-id" = Some "42" ∧
  "42" ≠ "" ∧
  candidate_id sample_hash sample_clock (card "42" "A new name") = Some "42".
Proof.
  assert (¬ extractor_raises (card "42" "A new name")) as Hnr by answers.
  assert ("42" ≠ "") as Hne by discriminate.
  split; [exact Hnr|]. split; [reflexivity|]. split; [exact Hne|].
  exact (native_id_identifies_thread sample_hash sample_clock _ "42" Hnr eq_refl Hne).
Defined.

(** The announcements thread, when its identifier cannot be read. *)
Lemma fallback_id_never_excluded_witness :
  falsy (card_attribute (anonymous_card "Announcements") SelContainer "data-item-id") = true ∧
  candidate_id sample_hash sample_clock (anonymous_card "Announcements") = Some "fallback:6" ∧
  "fallback:6" ≠ "1303609863024148602".
Proof.
  assert (candidate_id sample_hash sample_clock (anonymous_card "Announcements")
          = Some "fallback:6") as Hid by (vm_compute; reflexivity).
  split; [reflexivity|]. split; [exact Hid|].
  exact (proj1 (fallback_id_never_excluded sample_hash sample_clock
                  (anonymous_card "Announcements") "fallback:6" eq_refl Hid)).
Defined.

(** Two threads of the same title, neither with an identifier: one request. *)
Lemma untagged_cards_identified_by_title_witness :
  0 < MAX_SEEN_THREADS ∧
  ¬ extractor_raises (anonymous_card " Raid tonight") ∧
  ¬ extractor_raises (preview_card "Raid tonight  " "another thread") ∧
  ∃ w1 w2,
    process_thread "https://hook" None MAX_SEEN_THREADS sample_hash sample_json_dumps
      status_204 write_ok sample_clock (anonymous_card " Raid tonight") empty_world
    = (Ok tt, w1) ∧
    process_thread "https://hook" None MAX_SEEN_THREADS sample_hash sample_json_dumps
      status_204 write_ok sample_clock (preview_card "Raid tonight  " "another thread") w1
    = (Ok tt, w2) ∧
    posts w2 = posts w1.
Proof.
  assert (¬ extractor_raises (anonymous_card " Raid tonight")) as Hnr1 by answers.
  assert (¬ extractor_raises (preview_card "Raid tonight  " "another thread")) as Hnr2
    by answers.
  split; [reflexivity|]. split; [exact Hnr1|]. split; [exact Hnr2|].
  destruct (untagged_cards_identified_by_title "https://hook" None MAX_SEEN_THREADS
              sample_hash sample_json_dumps status_204 write_ok sample_clock eq_refl
              _ _ empty_world Hnr1 Hnr2 eq_refl eq_refl eq_refl)
    as (_ & w1 & w2 & Hrun1 & Hrun2 & Hposts & _).
  exists w1, w2. split; [exact Hrun1|]. split; [exact Hrun2|exact Hposts].
Defined.

(** Two titles of the same length, which [sample_hash] does not tell apart. *)
Lemma fallback_ids_collide_with_hash_witness :
  let d1 := thread_data_dict None "AB" "x" "" "" None in
  let d2 := thread_data_dict None "CD" "y" "" "" None in
  falsy (dict_get d1 "id" None) = true ∧
  falsy (dict_get d2 "id" None) = true ∧
  (thread_id_of sample_hash d1 empty_world).1 = (thread_id_of sample_hash d2 empty_world).1.
Proof.
  intros d1 d2. split; [reflexivity|]. split; [reflexivity|].
  apply (fallback_ids_collide_with_hash sample_hash d1 d2 "" "AB" "" "CD" empty_world
           eq_refl eq_refl eq_refl eq_refl eq_refl eq_refl).
  reflexivity.
Defined.

(** Twenty-five new threads in one poll: twenty entries. *)
Lemma seen_list_stays_bounded_witness :
  0 < MAX_SEEN_THREADS ∧
  (Z.to_nat MAX_SEEN_THREADS ≤ 20)%nat ∧
  (length (seen_threads empty_world) ≤ 20)%nat ∧
  (length (seen_threads
             (forum_monitor_loop "https://hook" None MAX_SEEN_THREADS sample_hash
                sample_json_dumps status_204 write_ok sample_clock
                [quiet_page (cards 25)] empty_world).2) ≤ 20)%nat.
Proof.
  assert (Z.to_nat MAX_SEEN_THREADS ≤ 20)%nat as Hk by (vm_compute; lia).
  assert (length (seen_threads empty_world) ≤ 20)%nat as Hw by (simpl; lia).
  split; [reflexivity|]. split; [exact Hk|]. split; [exact Hw|].
  exact (seen_list_stays_bounded "https://hook" None MAX_SEEN_THREADS sample_hash
           sample_json_dumps status_204 write_ok sample_clock eq_refl
           20%nat [quiet_page (cards 25)] empty_world Hk Hw).
Defined.

(** Three threads polled twice. *)
Lemma no_identifier_recorded_twice_witness :
  NoDup (filter (λ i, i ≠ "1303609863024148602") (seen_threads empty_world)) ∧
  NoDup (filter (λ i, i ≠ "1303609863024148602")
           (seen_threads
              (forum_monitor_loop "https://hook" None MAX_SEEN_THREADS sample_hash
                 sample_json_dumps status_204 write_ok sample_clock
                 [quiet_page (cards 3); quiet_page (cards 3)] empty_world).2)).
Proof.
  assert (NoDup (filter (λ i, i ≠ "1303609863024148602") (seen_threads empty_world)))
    as Hw by apply NoDup_nil_2.
  split; [exact Hw|].
  exact (no_identifier_recorded_twice "https://hook" None MAX_SEEN_THREADS sample_hash
           sample_json_dumps status_204 write_ok sample_clock
           [quiet_page (cards 3); quiet_page (cards 3)] empty_world Hw).
Defined.

(** An empty list in the file, and a disk that takes every write. *)
Lemma file_keeps_step_with_memory_witness :
  (∀ n, write_ok n = WriteOk) ∧
  file_in_step sample_json_dumps
    (set_threads_file (File (Ok (sample_json_dumps (JArr [])))) empty_world) ∧
  file_in_step sample_json_dumps
    (forum_monitor_loop "https://hook" None MAX_SEEN_THREADS sample_hash
       sample_json_dumps status_204 write_ok sample_clock
       [quiet_page (cards 3)]
       (set_threads_file (File (Ok (sample_json_dumps (JArr [])))) empty_world)).2.
Proof.
  assert (∀ n, write_ok n = WriteOk) as Hdisk by (intros n; reflexivity).
  assert (file_in_step sample_json_dumps
            (set_threads_file (File (Ok (sample_json_dumps (JArr [])))) empty_world))
    as Hw by reflexivity.
  split; [exact Hdisk|]. split; [exact Hw|].
  exact (file_keeps_step_with_memory "https://hook" None MAX_SEEN_THREADS sample_hash
           sample_json_dumps status_204 write_ok sample_clock
           [quiet_page (cards 3)] _ Hdisk Hw).
Defined.

(** The scenario of the bound of two, read back. *)
Lemma recorded_list_read_back_witness :
  write_ok 0 = WriteOk ∧
  ∃ w', record 2 sample_json_dumps write_ok "3" (set_seen_threads ["1"; "2"] empty_world)
        = (Ok tt, w') ∧
    load_seen_threads sample_json_loads w' = (Ok (JArr [JStr "2"; JStr "3"]), w').
Proof.
  split; [reflexivity|].
  destruct (recorded_list_read_back 2 sample_json_loads sample_json_dumps write_ok "3"
              (set_seen_threads ["1"; "2"] empty_world) eq_refl)
    as (w' & Hrun & Hload); [vm_compute; reflexivity|].
  exists w'. split; [exact Hrun|].
  assert (seen_threads w' = ["2"; "3"]) as Hseen.
  { vm_compute in Hrun. by injection Hrun as <-. }
  rewrite Hseen in Hload. exact Hload.
Defined.

(** The disk fills up in the middle of the write. *)
Lemma torn_write_loaded_as_left_witness :
  (λ _ : nat, DumpRaises (OtherException "OSError") "[") 0%nat
  = DumpRaises (OtherException "OSError") "[" ∧
  ∃ w', record 2 sample_json_dumps (λ _, DumpRaises (OtherException "OSError") "[") "3"
          (set_seen_threads ["1"; "2"] empty_world)
        = (Ok tt, w') ∧
    seen_threads w' = ["2"; "3"] ∧
    threads_file w' = File (Ok "[") ∧
    load_seen_threads sample_json_loads w' = (Ok (JArr []), w').
Proof.
  split; [reflexivity|].
  destruct (torn_write_loaded_as_left 2 sample_json_loads sample_json_dumps
              (λ _, DumpRaises (OtherException "OSError") "[") "3"
              (set_seen_threads ["1"; "2"] empty_world)
              (OtherException "OSError") "[" eq_refl)
    as (w' & Hrun & Hseen & Hfile & Hload).
  exists w'. split; [exact Hrun|]. split; [exact Hseen|]. split; [exact Hfile|exact Hload].
Defined.

(** A bound of zero. *)
Lemma nonpositive_bound_does_not_bound_witness :
  0 ≤ 0 ∧
  ∃ w', record 0 sample_json_dumps write_ok "3" (set_seen_threads ["1"; "2"] empty_world)
        = (Ok tt, w') ∧
    seen_threads w' = ["1"; "2"; "3"].
Proof.
  split; [reflexivity|].
  destruct (nonpositive_bound_does_not_bound 0 sample_json_dumps write_ok "3"
              (set_seen_threads ["1"; "2"] empty_world))
    as (w' & Hrun & _ & Hseen); [discriminate|].
  exists w'. split; [exact Hrun|exact (Hseen eq_refl)].
Defined.

(** A new thread with a blank preview, and a role to mention. *)
Lemma new_card_payload_witness :
  candidate_id sample_hash sample_clock (preview_card " Raid tonight " "   ")
  = Some "fallback:5" ∧
  "fallback:5" ≠ "1303609863024148602" ∧
  ("fallback:5" ∉ seen_threads empty_world) ∧
  ∃ w',
    process_thread "https://hook" (Some "77") MAX_SEEN_THREADS sample_hash
      sample_json_dumps status_204 write_ok sample_clock
      (preview_card " Raid tonight " "   ") empty_world
    = (Ok tt, w') ∧
    trace w'
    = [EvNewThread "fallback:5";
       EvPost "https://hook"
         (JObj [("username", JStr "Arlecchino");
                ("content", JStr "<@&77>");
                ("embeds",
                 JArr [JObj [("title", JStr "Raid tonight");
                             ("description", JStr "No preview available.");
                             ("timestamp", JNull);
                             ("footer",
                              JObj [("text", JStr "brought to you by arle.");
                                    ("icon_url", JStr "https://i.imgur.com/JdlwG9w.jpeg")])]])])
         (Ok 204);
       EvDump (seen_threads w') WriteOk].
Proof.
  assert (candidate_id sample_hash sample_clock (preview_card " Raid tonight " "   ")
          = Some "fallback:5") as Hid by (vm_compute; reflexivity).
  assert ("fallback:5" ≠ "1303609863024148602") as Hnb by discriminate.
  assert ("fallback:5" ∉ seen_threads empty_world) as Hnew.
  { apply (bool_decide_eq_false_1 (_ ∈ _)). reflexivity. }
  split; [exact Hid|]. split; [exact Hnb|]. split; [exact Hnew|].
  exact (new_card_payload "https://hook" (Some "77") MAX_SEEN_THREADS sample_hash
           sample_json_dumps status_204 write_ok sample_clock
           (preview_card " Raid tonight " "   ") "fallback:5" empty_world Hid Hnb Hnew).
Defined.

(** Data without any key. *)
Lemma post_defaults_for_missing_keys_witness :
  (∅ : gmap string pyval) !! "title" = None ∧
  (∅ : gmap string pyval) !! "content" = None ∧
  ∃ w', post_new_thread_webhook "https://hook" None status_204 sample_clock ∅ empty_world
        = (Ok tt, w') ∧
    trace w'
    = [EvPost "https://hook"
         (JObj [("username", JStr "Arlecchino");
                ("content", JStr "");
                ("embeds",
                 JArr [JObj [("title", JStr "Untitled");
                             ("description", JStr "No preview available.");
                             ("timestamp", JNull);
                             ("footer",
                              JObj [("text", JStr "brought to you by arle.");
                                    ("icon_url", JStr "https://i.imgur.com/JdlwG9w.jpeg")])]])])
         (Ok 204)].
Proof.
  split; [reflexivity|]. split; [reflexivity|].
  exact (post_defaults_for_missing_keys "https://hook" None status_204 sample_clock
           ∅ empty_world eq_refl eq_refl).
Defined.

(** Data whose content is [None]. *)
Lemma post_raises_on_none_content_witness :
  ({["content" := None]} : gmap string pyval) !! "content" = Some None ∧
  (post_new_thread_webhook "https://hook" None status_204 sample_clock
     {["content" := None]} empty_world).1
  = Raise (OtherException "AttributeError").
Proof.
  split; [reflexivity|].
  exact (proj1 (post_raises_on_none_content "https://hook" None status_204 sample_clock
                  {["content" := None]} empty_world eq_refl)).
Defined.

(** Eighty-five quiet polls: two reloads. *)
Lemma page_reloaded_every_fortieth_poll_witness :
  Forall (λ page, page_raises page = false ∧ randint_scroll page ≠ 0)
    (replicate 85 (quiet_page [])) ∧
  ∃ w',
    forum_monitor_loop "https://hook" None MAX_SEEN_THREADS sample_hash
      sample_json_dumps status_204 write_ok sample_clock
      (replicate 85 (quiet_page [])) empty_world
    = (Ok Running, w') ∧
    scroll_counter w' = 85 ∧
    Z.of_nat (reloads (trace w')) = 2.
Proof.
  assert (Forall (λ page, page_raises page = false ∧ randint_scroll page ≠ 0)
            (replicate 85 (quiet_page []))) as Hcalm.
  { apply Forall_replicate. split; [reflexivity|discriminate]. }
  split; [exact Hcalm|].
  exact (page_reloaded_every_fortieth_poll "https://hook" None MAX_SEEN_THREADS
           sample_hash sample_json_dumps status_204 write_ok sample_clock
           (replicate 85 (quiet_page [])) empty_world Hcalm).
Defined.
